(** * datasets/coco.py: annotation normalisation, split pipelines, dataset views

    A shallow embedding of [src/datasets/coco.py].

    - Python exceptions are values of [exn]; a computation that may raise
      has type [result A] and is sequenced with stdpp's [x ← c; k].
    - A torch tensor / numpy array is a [tensor]: its shape together with
      its elements in row-major order.  Only the torch operations the file
      calls are modelled ([as_tensor], [reshape], [view], [stack], [any],
      boolean-mask indexing, [clamp_]), each with the error it raises.
    - float32 coordinates are modelled by rationals [Q]: rounding is not
      modelled, the arithmetic and the comparisons are exact.  What is
      modelled of the conversion of Python numbers is its errors: an int
      outside int64 in an integer tensor, and a number too large for a
      double in a float tensor.
    - A raw COCO annotation (a Python dict) is a record of optional
      fields, so that [key in obj] and [KeyError] are both expressible.
    - [pycocotools.mask] and the parent class [TvCocoDetection] are
      collaborators outside this file; they are Section variables. *)

From Stdlib Require Import ZArith QArith Qabs Qminmax List Bool String Lia Lqa.
From stdpp Require Import base option list gmap.
Import ListNotations.

Open Scope string_scope.
Open Scope nat_scope.

(* ===================================================================== *)
(** ** Exceptions and the error monad *)

Inductive exn : Type :=
| KeyError (key : string)
| ValueError (msg : string)
| TypeError (msg : string)
| IndexError (msg : string)
| RuntimeError (msg : string)
| OverflowError (msg : string).

Inductive result (A : Type) : Type :=
| Ok (a : A)
| Raise (e : exn).
Arguments Ok {A} a.
Arguments Raise {A} e.

Definition rbind {A B} (c : result A) (k : A -> result B) : result B :=
  match c with
  | Ok a => k a
  | Raise e => Raise e
  end.

#[export] Instance result_bind : MBind result := fun A B k c => rbind c k.
#[export] Instance result_ret : MRet result := @Ok.

(** [[f(x) for x in l]] where [f] may raise: the first failure aborts. *)
Fixpoint rmap {A B} (f : A -> result B) (l : list A) : result (list B) :=
  match l with
  | [] => Ok []
  | x :: l' => y ← f x; ys ← rmap f l'; Ok (y :: ys)
  end.

(** [d[key]] on a dict whose entry [key] is modelled by an option. *)
Definition getitem {A} (key : string) (v : option A) : result A :=
  match v with
  | Some a => Ok a
  | None => Raise (KeyError key)
  end.

(* ===================================================================== *)
(** ** Tensors *)

Record tensor (A : Type) : Type := Tensor {
  shape : list nat;
  data : list A
}.
Arguments Tensor {A} shape data.
Arguments shape {A} t.
Arguments data {A} t.

Definition numel (s : list nat) : nat := fold_right Nat.mul 1 s.

(** Python's [len(t)] and [t.shape[0]]. *)
Definition len {A} (t : tensor A) : nat := hd 0 (shape t).

(** [n] consecutive blocks of [c] elements each. *)
Fixpoint chunks {A} (n c : nat) (d : list A) : list (list A) :=
  match n with
  | 0 => []
  | S n' => firstn c d :: chunks n' c (skipn c d)
  end.

(** The sub-tensors along dimension 0. *)
Definition rows {A} (t : tensor A) : list (list A) :=
  chunks (len t) (numel (tl (shape t))) (data t).

Definition map_rows {A} (f : list A -> list A) (t : tensor A) : tensor A :=
  Tensor (shape t) (concat (map f (rows t))).

(** [torch.tensor(l)] / [torch.as_tensor(l)] on a flat list. *)
Definition tensor_1d {A} (l : list A) : tensor A := Tensor [length l] l.

Definition int64_min : Z := (- 2 ^ 63)%Z.
Definition int64_max : Z := (2 ^ 63 - 1)%Z.
Definition fits_int64 (z : Z) : bool :=
  (int64_min <=? z)%Z && (z <=? int64_max)%Z.

(** [torch.tensor(l, dtype=torch.int64)] on Python ints: an int that does
    not fit raises. *)
Definition tensor_int64 (l : list Z) : result (tensor Z) :=
  if forallb fits_int64 l then Ok (tensor_1d l)
  else Raise (RuntimeError "Overflow when unpacking long").

(** Converting a Python number to a C double raises OverflowError from
    2^1024 - 2^970 on (the value that rounds to 2^1024); such a number is
    necessarily an int. *)
Definition double_overflow : Q := inject_Z (2 ^ 1024 - 2 ^ 970).
Definition fits_double (q : Q) : bool :=
  negb (Qle_bool double_overflow (Qabs q)).

(** One row of [torch.as_tensor(l, dtype=torch.float32)]: its length is
    checked against the first row's, then its numbers are stored in
    order. *)
Definition store_row (k : nat) (r : list Q) : result (list Q) :=
  if length r =? k then
    if forallb fits_double r then Ok r
    else Raise (OverflowError "int too large to convert to float")
  else Raise (ValueError "expected sequence of equal length").

(** [torch.as_tensor(l, dtype=torch.float32)] on a list of lists: the
    empty list gives shape (0,); a ragged row or a number too large for a
    double raises, whichever comes first. *)
Definition as_tensor_float32 (l : list (list Q)) : result (tensor Q) :=
  match l with
  | [] => Ok (Tensor [0] [])
  | r :: _ =>
      stored ← rmap (store_row (length r)) l;
      Ok (Tensor [length l; length r] (concat stored))
  end.

(** A Python number as the JSON reader gives it: an int or a float. *)
Inductive PyNumber : Type :=
| PyInt (z : Z)
| PyFloat (q : Q).

Definition py_value (n : PyNumber) : Q :=
  match n with
  | PyInt z => inject_Z z
  | PyFloat q => q
  end.

Definition is_py_int (n : PyNumber) : bool :=
  match n with
  | PyInt _ => true
  | PyFloat _ => false
  end.

(** Can [n] be stored in an int64 tensor ([as_int]) or in a float
    tensor? *)
Definition fits_dtype (as_int : bool) (n : PyNumber) : bool :=
  match n with
  | PyInt z => if as_int then fits_int64 z else fits_double (inject_Z z)
  | PyFloat _ => true
  end.

(** [torch.tensor(l)] on a flat list of Python numbers, no dtype given:
    the tensor is int64 when every entry is an int, and a float tensor
    otherwise; an int that does not fit raises. *)
Definition torch_tensor (l : list PyNumber) : result (tensor Q) :=
  let as_int := forallb is_py_int l in
  if forallb (fits_dtype as_int) l then Ok (tensor_1d (List.map py_value l))
  else Raise (if as_int
              then RuntimeError "Overflow when unpacking long"
              else OverflowError "int too large to convert to float").

(** [t.reshape(-1, 4)] and [t.view(n, -1, 3)]: the dimensions before and
    after the [-1] are [pre] and [post]; the unspecified dimension is
    inferred from the number of elements. *)
Definition reshape_infer {A} (pre post : list nat) (t : tensor A)
  : result (tensor A) :=
  let known := numel (pre ++ post) in
  let n := numel (shape t) in
  if known =? 0 then Raise (RuntimeError "cannot infer dimension")
  else if n mod known =? 0
       then Ok (Tensor (pre ++ [n / known] ++ post) (data t))
       else Raise (RuntimeError "shape is invalid for input size").

(** [torch.stack(ts, dim=0)]. *)
Definition stack {A} (ts : list (tensor A)) : result (tensor A) :=
  match ts with
  | [] => Raise (RuntimeError "stack expects a non-empty list")
  | t0 :: _ =>
      if forallb (fun t => bool_decide (shape t = shape t0)) ts
      then Ok (Tensor (length ts :: shape t0) (concat (map data ts)))
      else Raise (RuntimeError "stack expects each tensor to be equal size")
  end.

(** [torch.zeros(s)]. *)
Definition zeros {A} (zero : A) (s : list nat) : tensor A :=
  Tensor s (repeat zero (numel s)).

(** The entries of [l] whose flag in [keep] is set. *)
Fixpoint select {A} (keep : list bool) (l : list A) : list A :=
  match keep, l with
  | b :: keep', x :: l' => if b then x :: select keep' l' else select keep' l'
  | _, _ => []
  end.

(** [t[keep]] for a one-dimensional boolean [keep]: the mask must be as
    long as dimension 0 of [t]. *)
Definition index_mask {A} (t : tensor A) (keep : list bool)
  : result (tensor A) :=
  match shape t with
  | n :: rest =>
      if length keep =? n
      then let kept := select keep (rows t) in
           Ok (Tensor (length kept :: rest) (concat kept))
      else Raise (IndexError "The shape of the mask does not match")
  | [] => Raise (IndexError "too many indices for tensor of dimension 0")
  end.

(** [m[..., None]]: a trailing dimension of size 1. *)
Definition unsqueeze_last {A} (t : tensor A) : tensor A :=
  Tensor (shape t ++ [1]) (data t).

(** [m.any(dim=2)]. *)
Definition any_dim2 (t : tensor Z) : result (tensor bool) :=
  match shape t with
  | a :: b :: c :: rest =>
      let r := numel rest in
      Ok (Tensor (a :: b :: rest)
            (concat (map (fun blk =>
                       fold_right (fun x acc => List.map (fun p => orb (fst p) (snd p)) (combine x acc))
                                  (repeat false r)
                                  (chunks c r (List.map (fun v => negb (v =? 0)%Z) blk)))
                     (chunks (a * b) (c * r) (data t)))))
  | _ => Raise (IndexError "Dimension out of range")
  end.

(* ===================================================================== *)
(** ** Box arithmetic *)

Definition Qltb (x y : Q) : bool := negb (Qle_bool y x).

(** [x.clamp_(min=lo, max=hi)] on one element. *)
Definition clamp (lo hi x : Q) : Q := Qmin (Qmax x lo) hi.

(** [boxes[:, 2:] += boxes[:, :2]] on one row. *)
Definition add_xy (r : list Q) : list Q :=
  firstn 2 r ++ List.map (fun p => (fst p + snd p)%Q) (combine (skipn 2 r) (firstn 2 r)).

(** [boxes[:, start::2].clamp_(min=0, max=hi)] on one row. *)
Definition clamp_stride2 (start : nat) (hi : Q) (r : list Q) : list Q :=
  imap (fun i v => if (start <=? i) && Nat.even (i - start)
                   then clamp 0 hi v else v) r.

(** [(boxes[:, 3] > boxes[:, 1]) & (boxes[:, 2] > boxes[:, 0])] on one row. *)
Definition keep_row (r : list Q) : bool :=
  Qltb (nth 1 r 0%Q) (nth 3 r 0%Q) && Qltb (nth 0 r 0%Q) (nth 2 r 0%Q).

(* ===================================================================== *)
(** ** Data model *)

(** The [segmentation] entry of a COCO annotation: polygons, or a
    run-length encoding with its (height, width). *)
Inductive Segmentation : Type :=
| Polygons (polys : list (list Q))
| RLE (rle_size : nat * nat) (counts : list nat).

(** One raw annotation [obj]; [None] means the key is not in the dict. *)
Record RawAnnotation : Type := {
  obj_bbox : option (list Q);
  obj_category_id : option Z;
  obj_segmentation : option Segmentation;
  obj_area : option PyNumber;
  obj_iscrowd : option Z;
  obj_keypoints : option (list Q)
}.

(** The dict [{'image_id': ..., 'annotations': ...}] that [__getitem__]
    hands to [prepare]. *)
Record RawTarget : Type := {
  raw_image_id : Z;
  raw_annotations : list RawAnnotation
}.

(** A PIL image; only [image.size = (width, height)] is read. *)
Record Image : Type := {
  image_size : nat * nat
}.

(** The [target] dict built by [ConvertCocoPolysToMask.__call__]; the two
    keys that are only sometimes set are options. *)
Record Target : Type := {
  target_boxes : tensor Q;
  target_labels : tensor Z;
  target_masks : option (tensor bool);
  target_image_id : tensor Z;
  target_keypoints : option (tensor Q);
  target_area : tensor Q;
  target_iscrowd : tensor Z;
  target_orig_size : tensor Z;
  target_size : tensor Z
}.

Record ConvertCocoPolysToMask : Type := {
  return_masks : bool
}.

(** Line 107: the keep-mask, one flag per row of [boxes]. *)
Definition keep_mask (boxes : tensor Q) : list bool :=
  List.map keep_row (rows boxes).

Definition count_true (keep : list bool) : nat :=
  length (List.filter (fun b : bool => b) keep).

Definition QofNat (n : nat) : Q := inject_Z (Z.of_nat n).

(** [[obj for obj in anno if 'iscrowd' not in obj or obj['iscrowd'] == 0]] *)
Definition not_crowd (obj : RawAnnotation) : bool :=
  match obj_iscrowd obj with
  | None => true
  | Some c => (c =? 0)%Z
  end.

(** Lines 85-90: the boxes tensor before the keep-mask. *)
Definition convert_boxes (w h : nat) (anno : list RawAnnotation)
  : result (tensor Q) :=
  boxes ← rmap (fun obj => getitem "bbox" (obj_bbox obj)) anno;
  boxes ← as_tensor_float32 boxes;
  boxes ← reshape_infer [] [4] boxes;
  let boxes := map_rows add_xy boxes in
  let boxes := map_rows (clamp_stride2 0 (QofNat w)) boxes in
  let boxes := map_rows (clamp_stride2 1 (QofNat h)) boxes in
  Ok boxes.

(** ["keypoints" in anno[0]], guarded by [anno] being non-empty: the
    keypoints entry of the first annotation, if any. *)
Definition first_keypoints (anno : list RawAnnotation) : option (list Q) :=
  match anno with
  | obj0 :: _ => obj_keypoints obj0
  | [] => None
  end.

(** Lines 99-105. *)
Definition convert_keypoints (anno : list RawAnnotation)
  : result (option (tensor Q)) :=
  match anno with
  | obj0 :: _ =>
      if bool_decide (is_Some (obj_keypoints obj0)) then
        keypoints ← rmap (fun obj => getitem "keypoints" (obj_keypoints obj)) anno;
        keypoints ← as_tensor_float32 keypoints;
        let num_keypoints := len keypoints in
        if num_keypoints =? 0 then Ok (Some keypoints)
        else keypoints ← reshape_infer [num_keypoints] [3] keypoints;
             Ok (Some keypoints)
      else Ok None
  | [] => Ok None
  end.

(** [x = x[keep]] guarded by [if x is not None] / [if self.return_masks]. *)
Definition index_mask_opt {A} (t : option (tensor A)) (keep : list bool)
  : result (option (tensor A)) :=
  match t with
  | Some t => t' ← index_mask t keep; Ok (Some t')
  | None => Ok None
  end.

Section Normalizer.

(** [coco_mask.decode(coco_mask.frPyObjects(polygons, height, width))]:
    the rasteriser of pycocotools, a uint8 array. *)
Variable rasterize : Segmentation -> nat -> nat -> result (tensor Z).

Definition convert_coco_poly_to_mask (segmentations : list Segmentation)
           (height width : nat) : result (tensor bool) :=
  masks ← rmap (fun polygons =>
                   mask ← rasterize polygons height width;
                   let mask := if length (shape mask) <? 3
                               then unsqueeze_last mask else mask in
                   any_dim2 mask)
                segmentations;
  match masks with
  | _ :: _ => stack masks
  | [] => Ok (zeros false [0; height; width])
  end.

Definition ConvertCocoPolysToMask_call (self : ConvertCocoPolysToMask)
           (image : Image) (target : RawTarget) : result (Image * Target) :=
  let '(w, h) := image_size image in
  image_id ← tensor_int64 [raw_image_id target];
  let anno := raw_annotations target in
  let anno := List.filter not_crowd anno in
  boxes ← convert_boxes w h anno;
  classes ← rmap (fun obj => getitem "category_id" (obj_category_id obj)) anno;
  classes ← tensor_int64 classes;
  masks ← (if return_masks self then
              segmentations ← rmap (fun obj => getitem "segmentation" (obj_segmentation obj)) anno;
              masks ← convert_coco_poly_to_mask segmentations h w;
              Ok (Some masks)
            else Ok None);
  keypoints ← convert_keypoints anno;
  let keep := keep_mask boxes in
  boxes ← index_mask boxes keep;
  classes ← index_mask classes keep;
  masks ← index_mask_opt masks keep;
  keypoints ← index_mask_opt keypoints keep;
  area ← rmap (fun obj => getitem "area" (obj_area obj)) anno;
  area ← torch_tensor area;
  iscrowd ← tensor_int64
               (List.map (fun obj => match obj_iscrowd obj with
                                     | Some c => c
                                     | None => 0%Z
                                     end) anno);
  area ← index_mask area keep;
  iscrowd ← index_mask iscrowd keep;
  Ok (image, {| target_boxes := boxes;
                target_labels := classes;
                target_masks := masks;
                target_image_id := image_id;
                target_keypoints := keypoints;
                target_area := area;
                target_iscrowd := iscrowd;
                target_orig_size := tensor_1d [Z.of_nat h; Z.of_nat w];
                target_size := tensor_1d [Z.of_nat h; Z.of_nat w] |}).

End Normalizer.

(** A rasteriser for examples: the all-zero bitmap of the requested size. *)
Definition blank_rasterize (_ : Segmentation) (height width : nat)
  : result (tensor Z) :=
  Ok (zeros 0%Z [height; width]).

Definition image_640x480 : Image := {| image_size := (640, 480) |}.

Definition mk_obj (bbox : list Q) (cat : Z) (a : Z) (crowd : option Z)
  : RawAnnotation :=
  {| obj_bbox := Some bbox; obj_category_id := Some cat;
     obj_segmentation := None; obj_area := Some (PyInt a);
     obj_iscrowd := crowd; obj_keypoints := None |}.


(* ===================================================================== *)
(** ** Augmentation pipelines ([make_coco_transforms]) *)

(** An entry of [sizes]: an int, or a (height, width) tuple. *)
Inductive SizeSpec : Type :=
| SizeInt (s : Z)
| SizePair (a b : Z).

(** The constructors of [datasets.transforms] that this file calls, with
    the arguments it passes; an omitted [max_size] is [None]. *)
#[warnings="-register-all"]
Inductive Transform : Type :=
| Compose (transforms : list Transform)
| ToTensor
| Normalize (mean std : list Q)
| RandomHorizontalFlip
| RandomSelect (transforms1 transforms2 : Transform)
| RandomResize (sizes : list SizeSpec) (max_size : option Z)
| RandomSizeCrop (min_size max_size : Z).

Definition normalize : Transform :=
  Compose [ToTensor;
           Normalize [0.485; 0.456; 0.406]%Q [0.229; 0.224; 0.225]%Q].

Definition scales : list SizeSpec :=
  List.map SizeInt [480; 512; 544; 576; 608; 640; 672; 704; 736; 768; 800]%Z.

Definition make_coco_transforms (image_set : string) (fix_size : bool)
  : result Transform :=
  if String.eqb image_set "train" then
    Ok (Compose [RandomHorizontalFlip;
                 RandomSelect
                   (RandomResize scales (Some 1333%Z))
                   (Compose [RandomResize (List.map SizeInt [400; 500; 600]%Z) None;
                             RandomSizeCrop 384 600;
                             RandomResize scales (Some 1333%Z)]);
                 normalize])
  else if String.eqb image_set "extra" then
    if fix_size then
      Ok (Compose [RandomHorizontalFlip;
                   RandomResize [SizePair 600 600] None;
                   normalize])
    else
      Ok (Compose [normalize])
  else if String.eqb image_set "val" then
    Ok (Compose [RandomResize [SizeInt 800] (Some 1333%Z);
                 normalize])
  else Raise (ValueError ("unknown " ++ image_set)).

(** The top-level steps of a pipeline, in order. *)
Definition steps (t : Transform) : list Transform :=
  match t with
  | Compose ts => ts
  | _ => [t]
  end.

(** Does a horizontal flip occur anywhere in the pipeline? *)
Fixpoint has_flip (t : Transform) : bool :=
  match t with
  | Compose ts => existsb has_flip ts
  | RandomHorizontalFlip => true
  | RandomSelect a b => has_flip a || has_flip b
  | _ => false
  end.

(* ===================================================================== *)
(** ** Dataset views ([CocoDetection], [build]) *)

Record Category : Type := {
  cat_id : Z;
  cat_name : string
}.

(** The part of the pycocotools [COCO] object that this file touches. *)
Record COCO : Type := {
  cats : gmap Z Category
}.

(** The state left by [TvCocoDetection.__init__]. *)
Record TvCocoDetection : Type := {
  coco : COCO;
  ids : list Z
}.

Record CocoDetection : Type := {
  tv_base : TvCocoDetection;
  _transforms : option Transform;
  prepare : ConvertCocoPolysToMask
}.

Record Args : Type := {
  coco_path : string;
  generator_path : string;
  Sampling_strategy : string;
  args_masks : bool;
  cache_mode : bool
}.

(** [for x in v] when [v] may be [None]. *)
Definition iter {A} (v : option (list A)) : result (list A) :=
  match v with
  | Some l => Ok l
  | None => Raise (TypeError "'NoneType' object is not iterable")
  end.

(** Lines 33-38: the loop with its [try] / [except KeyError: pass]. *)
Definition restrict_cats (store : gmap Z Category) (class_ids : list Z)
  : gmap Z Category :=
  fold_left (fun cats class_id =>
               match store !! class_id with
               | Some c => <[class_id := c]> cats
               | None => cats
               end)
            class_ids ∅.

(** [l[idx]] on a Python list. *)
Definition list_getitem {A} (l : list A) (idx : Z) : result A :=
  let n := Z.of_nat (length l) in
  let i := if (idx <? 0)%Z then (idx + n)%Z else idx in
  if (0 <=? i)%Z && (i <? n)%Z
  then getitem "" (nth_error l (Z.to_nat i))
  else Raise (IndexError "list index out of range").

Definition get_paths (args : Args) (pseudo : bool)
  : gmap string (string * string) :=
  <["train" := ("/mnt/thanhpd/MTSD/mtsd_fully_annotated_train_images/images",
                "/mnt/thanhpd/code/mtsd_cl/CL_rtdetr/train_output_file_coco.json")]>
  (<["val" := ("/mnt/thanhpd/MTSD/mtsd_v2_fully_annotated_images.val.zip/images",
               "/mnt/thanhpd/code/mtsd_cl/CL_rtdetr/val_output_file_coco.json")]>
   ∅).

Section DatasetView.

Variable rasterize : Segmentation -> nat -> nat -> result (tensor Z).

(** [TvCocoDetection.__init__(img_folder, ann_file, cache_mode,
    local_rank, local_size, ids_list, class_ids)], in
    [datasets/torchvision_datasets]. *)
Variable TvCocoDetection_init :
  string -> string -> bool -> Z -> Z ->
  option (list Z) -> option (list Z) -> result TvCocoDetection.

(** [TvCocoDetection.__getitem__(idx)]: the image and its raw
    annotation list. *)
Variable TvCocoDetection_getitem :
  TvCocoDetection -> Z -> result (Image * list RawAnnotation).

(** [transforms(img, target)], in [datasets/transforms]. *)
Variable apply_transforms :
  Transform -> Image * Target -> result (Image * Target).

(** [get_local_rank()] and [get_local_size()], in [util/misc]. *)
Variable get_local_rank : Z.
Variable get_local_size : Z.

Definition CocoDetection_init (img_folder ann_file : string)
           (transforms : option Transform) (return_masks : bool)
           (cache_mode : bool) (local_rank local_size : Z)
           (img_ids class_ids : option (list Z)) : result CocoDetection :=
  self ← TvCocoDetection_init img_folder ann_file cache_mode
            local_rank local_size img_ids class_ids;
  class_ids ← iter class_ids;
  let cats := restrict_cats (cats (coco self)) class_ids in
  Ok {| tv_base := {| coco := {| cats := cats |}; ids := ids self |};
        _transforms := transforms;
        prepare := {| return_masks := return_masks |} |}.

Definition CocoDetection_getitem (self : CocoDetection) (idx : Z)
  : result (Image * Target) :=
  '(img, target) ← TvCocoDetection_getitem (tv_base self) idx;
  image_id ← list_getitem (ids (tv_base self)) idx;
  let target := {| raw_image_id := image_id; raw_annotations := target |} in
  '(img, target) ← ConvertCocoPolysToMask_call rasterize (prepare self) img target;
  match _transforms self with
  | Some transforms => apply_transforms transforms (img, target)
  | None => Ok (img, target)
  end.

(** The two [print] calls are not modelled. *)
Definition build (image_set : string) (args : Args)
           (img_ids class_ids : option (list Z)) (pseudo : bool)
  : result CocoDetection :=
  let PATHS := get_paths args pseudo in
  '(img_folder, ann_file) ← getitem image_set (PATHS !! image_set);
  transforms ← make_coco_transforms image_set
                  (String.eqb (Sampling_strategy args) "icarl");
  CocoDetection_init img_folder ann_file (Some transforms) (args_masks args)
    (cache_mode args) get_local_rank get_local_size img_ids class_ids.

End DatasetView.

(** Example inputs. *)
Definition image_6x4 : Image := {| image_size := (6, 4) |}.

Definition kp_obj (bbox : list Q) (cat : Z) (kps : list Q) : RawAnnotation :=
  {| obj_bbox := Some bbox; obj_category_id := Some cat;
     obj_segmentation := Some (Polygons []); obj_area := Some (PyFloat 2);
     obj_iscrowd := None; obj_keypoints := Some kps |}.

Definition sample_6x4 : RawTarget :=
  {| raw_image_id := 42;
     raw_annotations :=
       [kp_obj [1; 1; 2; 2]%Q 3 [1; 1; 2; 2; 2; 1]%Q;
        kp_obj [2; 1; 3; 0]%Q 5 [2; 1; 2; 3; 1; 0]%Q;
        mk_obj [0; 0; 9; 9]%Q 8 81 (Some 1%Z)] |}.

(* ===================================================================== *)
(** ** Specification-side definitions *)

(** What the specification says of one [bbox = (x, y, w, h)]: the corners
    (x, y, x+w, y+h), x clamped to [0, width] and y to [0, height]. *)
Definition xyxy_clamped (w h : nat) (b : Q * Q * Q * Q) : list Q :=
  let '(x, y, bw, bh) := b in
  [clamp 0 (QofNat w) x; clamp 0 (QofNat h) y;
   clamp 0 (QofNat w) (x + bw); clamp 0 (QofNat h) (y + bh)]%Q.

(** A well-formed [bbox] entry. *)
Definition bbox_list (b : Q * Q * Q * Q) : list Q :=
  let '(x, y, bw, bh) := b in [x; y; bw; bh].

(** Lines 99-105 succeed when the first annotation carries no keypoints,
    or all carry 3K numbers, each convertible to a double. *)
Definition keypoints_well_formed (anno : list RawAnnotation) : Prop :=
  first_keypoints anno = None \/
  exists K kps,
    List.map obj_keypoints anno = List.map Some kps /\
    Forall (fun k => length k = K * 3) kps /\
    Forall (fun k => forallb fits_double k = true) kps.

(** The contract of the rasteriser on one segmentation: it returns a
    (height, width) bitmap, or (height, width, c), one channel per
    polygon. *)
Definition rasterizes
           (rasterize : Segmentation -> nat -> nat -> result (tensor Z))
           (height width : nat) (seg : Segmentation) : Prop :=
  exists m, rasterize seg height width = Ok m /\
            (shape m = [height; width] \/
             exists c, shape m = [height; width; c]).

(** The non-crowd annotations [anno] are well formed: each has a
    four-number [bbox] (collected in [bs]) of numbers convertible to a
    double, a [category_id] that fits int64, an [area] that is a float or
    an int that fits int64, in mask mode a [segmentation] the rasteriser
    accepts, and keypoints as lines 99-105 need them. *)
Definition annotations_well_formed
           (rasterize : Segmentation -> nat -> nat -> result (tensor Z))
           (masks_on : bool) (w h : nat)
           (anno : list RawAnnotation) (bs : list (Q * Q * Q * Q)) : Prop :=
  List.map obj_bbox anno = List.map (fun b => Some (bbox_list b)) bs /\
  Forall (fun b => forallb fits_double (bbox_list b) = true) bs /\
  (exists cs, List.map obj_category_id anno = List.map Some cs /\
              forallb fits_int64 cs = true) /\
  (exists areas, List.map obj_area anno = List.map Some areas /\
                 forallb (fits_dtype true) areas = true) /\
  (masks_on = true ->
   exists segs, List.map obj_segmentation anno = List.map Some segs /\
                Forall (rasterizes rasterize h w) segs) /\
  keypoints_well_formed anno.

(** The 'extra' pipeline in the specification's words: flip, then the
    fixed-size resize if the flag is set, then normalize. *)
Definition spec_extra_pipeline (fix_size : bool) : Transform :=
  Compose ([RandomHorizontalFlip]
             ++ (if fix_size then [RandomResize [SizePair 600 600] None] else [])
             ++ [normalize]).

(* ===================================================================== *)
(** ** More example inputs *)

Definition degenerate_sample : RawTarget :=
  {| raw_image_id := 7;
     raw_annotations :=
       [kp_obj [2; 1; 3; 0]%Q 5 [2; 1; 2; 3; 1; 0]%Q;
        mk_obj [0; 0; 9; 9]%Q 8 81 (Some 1%Z)] |}.

Definition one_image_view : CocoDetection :=
  {| tv_base := {| coco := {| cats := ∅ |}; ids := [7%Z] |};
     _transforms := None;
     prepare := {| return_masks := false |} |}.

Definition two_number_bbox : RawAnnotation := mk_obj [100; 100]%Q 3 0 None.

Definition sample_args : Args :=
  {| coco_path := "/data/coco"; generator_path := "/data/gen";
     Sampling_strategy := "icarl"; args_masks := false; cache_mode := false |}.

Definition empty_store_init (_ _ : string) (_ : bool) (_ _ : Z)
           (img_ids _ : option (list Z)) : result TvCocoDetection :=
  Ok {| coco := {| cats := ∅ |}; ids := default [] img_ids |}.

Definition cat_5 : Category := {| cat_id := 5; cat_name := "regulatory--stop" |}.
Definition cat_7 : Category := {| cat_id := 7; cat_name := "warning--curve" |}.

(** A parent constructor over a store whose catalogue has ids 5 and 7. *)
Definition store_5_7_init (_ _ : string) (_ : bool) (_ _ : Z)
           (img_ids _ : option (list Z)) : result TvCocoDetection :=
  Ok {| coco := {| cats := <[5%Z := cat_5]> (<[7%Z := cat_7]> ∅) |};
        ids := default [1; 2; 3]%Z img_ids |}.

(* ===================================================================== *)
(** ** Definitions for the further properties *)

(** Lines 88-90 on the row of one well-formed [bbox]. *)
Definition box_row (w h : nat) (b : Q * Q * Q * Q) : list Q :=
  clamp_stride2 1 (QofNat h) (clamp_stride2 0 (QofNat w) (add_xy (bbox_list b))).

(** A row (x0, y0, x1, y1) with 0 <= x0 < x1 <= width and
    0 <= y0 < y1 <= height. *)
Definition proper_box (w h : nat) (r : list Q) : Prop :=
  exists x0 y0 x1 y1,
    r = [x0; y0; x1; y1] /\
    (0 <= x0)%Q /\ (x0 < x1)%Q /\ (x1 <= QofNat w)%Q /\
    (0 <= y0)%Q /\ (y0 < y1)%Q /\ (y1 <= QofNat h)%Q.

(** The row that lines 85-90 compute for one annotation ([[]] when its
    [bbox] is missing or has not four components). *)
Definition obj_box_row (w h : nat) (obj : RawAnnotation) : list Q :=
  match obj_bbox obj with
  | Some [x; y; bw; bh] => box_row w h (x, y, bw, bh)
  | _ => []
  end.

(** Line 107 on one annotation: does its row pass the keep-mask? *)
Definition survives (w h : nat) (obj : RawAnnotation) : bool :=
  keep_row (obj_box_row w h obj).

(** Two well-formed annotations of [sample_6x4], as [bbox] tuples. *)
Definition sample_6x4_boxes : list (Q * Q * Q * Q) :=
  [(1, 1, 2, 2); (2, 1, 3, 0)]%Q.

(** The split names [make_coco_transforms] knows. *)
Definition known_split (image_set : string) : Prop :=
  image_set = "train" \/ image_set = "extra" \/ image_set = "val".

(** A parent [__getitem__] over three images whose annotation lists are
    all [sample_6x4]'s. *)
Definition sample_fetch (_ : TvCocoDetection) (_ : Z)
  : result (Image * list RawAnnotation) :=
  Ok (image_6x4, raw_annotations sample_6x4).

Definition identity_transforms (_ : Transform) (x : Image * Target)
  : result (Image * Target) := Ok x.

Definition three_image_view : CocoDetection :=
  {| tv_base := {| coco := {| cats := ∅ |}; ids := [11; 22; 33]%Z |};
     _transforms := None;
     prepare := {| return_masks := false |} |}.

(** The number of channels of a decoded mask: the third dimension, or 1
    for a two-dimensional array. *)
Definition channels (m : tensor Z) : nat :=
  match shape m with
  | [_; _; c] => c
  | _ => 1
  end.

(** A decoded mask for a (height, width) image: a (height, width) or
    (height, width, c) array holding as many numbers as its shape says. *)
Definition decoded_mask (height width : nat) (m : tensor Z) : Prop :=
  (shape m = [height; width] \/ exists c, shape m = [height; width; c]) /\
  length (data m) = height * width * channels m.

(** The bitmap of a decoded mask: a pixel is set when one of its channels
    is non-zero. *)
Definition bitmap (height width : nat) (m : tensor Z) : list bool :=
  List.map (existsb (fun v => negb (v =? 0)%Z))
           (chunks (height * width) (channels m) (data m)).

(** A rasteriser for examples: three pixels on a 1x3 image, two channels. *)
Definition two_channel_rasterize (_ : Segmentation) (_ _ : nat)
  : result (tensor Z) :=
  Ok (Tensor [1; 3; 2] [0; 0; 1; 0; 0; 1]%Z).

(* ===================================================================== *)
(** ** The error monad and the tensor primitives *)

(** Peel the successful prefix of a computation that returned [Ok]. *)
Ltac inv_bind H :=
  unfold mbind, result_bind in H;
  repeat match type of H with
         | rbind ?c _ = Ok _ =>
             let a := fresh "v" in
             let E := fresh "E" in
             destruct c as [a|] eqn:E; simpl in H; [| discriminate H]
         end.

Lemma rmap_length {A B} (f : A -> result B) (l : list A) (r : list B) :
  rmap f l = Ok r -> length r = length l.
Proof.
  revert r. induction l as [|x l IH]; intros r H; simpl in H.
  - injection H as <-. reflexivity.
  - inv_bind H. injection H as <-. simpl. f_equal. apply IH. reflexivity.
Qed.

Lemma chunks_length {A} (n c : nat) (d : list A) :
  length (chunks n c d) = n.
Proof. revert d. induction n as [|n IH]; intros d; simpl; [|rewrite IH]; reflexivity. Qed.

Lemma rows_length {A} (t : tensor A) : length (rows t) = len t.
Proof. apply chunks_length. Qed.

Lemma select_length {A} (keep : list bool) (l : list A) :
  length keep = length l -> length (select keep l) = count_true keep.
Proof.
  unfold count_true. revert l.
  induction keep as [|b keep IH]; intros [|x l] H; simpl in *; try discriminate; auto.
  injection H as H. destruct b; simpl; rewrite (IH l H); reflexivity.
Qed.

Lemma keep_mask_length (boxes : tensor Q) :
  length (keep_mask boxes) = len boxes.
Proof. unfold keep_mask. rewrite length_map. apply rows_length. Qed.

(** Boolean-mask indexing succeeds exactly on a mask of the right length,
    and leaves [count_true keep] entries along dimension 0. *)
Lemma index_mask_Ok {A} (t t' : tensor A) (keep : list bool) :
  index_mask t keep = Ok t' ->
  length keep = len t /\ shape t' = count_true keep :: tl (shape t).
Proof.
  unfold index_mask, len. destruct (shape t) as [|n rest] eqn:Es; [discriminate|].
  destruct (Nat.eqb_spec (length keep) n) as [El|]; [|discriminate].
  intros H. injection H as <-. simpl. split; [exact El|].
  f_equal. apply select_length. rewrite rows_length. unfold len. rewrite Es. exact El.
Qed.

Lemma index_mask_len {A} (t t' : tensor A) (keep : list bool) :
  index_mask t keep = Ok t' -> len t' = count_true keep.
Proof. intros H. apply index_mask_Ok in H as [_ H]. unfold len. rewrite H. reflexivity. Qed.

Lemma index_mask_opt_len {A} (o o' : option (tensor A)) (keep : list bool) :
  index_mask_opt o keep = Ok o' ->
  forall t', o' = Some t' -> len t' = count_true keep.
Proof.
  destruct o as [t|]; simpl; intros H t' ->.
  - inv_bind H. injection H as <-. eapply index_mask_len; eauto.
  - discriminate.
Qed.

(** The image is handed back untouched. *)
Lemma call_returns_image
  (rasterize : Segmentation -> nat -> nat -> result (tensor Z))
  (self : ConvertCocoPolysToMask) (image image' : Image)
  (target : RawTarget) (t : Target) :
  ConvertCocoPolysToMask_call rasterize self image target = Ok (image', t) ->
  image' = image.
Proof.
  unfold ConvertCocoPolysToMask_call. destruct (image_size image) as [w h].
  intros H. inv_bind H. injection H as <- _. reflexivity.
Qed.

(* ===================================================================== *)
(** ** Index synchronisation of the normalised target *)

(** C1. Whenever [ConvertCocoPolysToMask.__call__] returns a target,
    [boxes], [labels], [area] and [iscrowd] all have the same length N,
    the number of set flags of the one keep-mask computed from the
    clamped boxes of the non-crowd annotations; [masks] and [keypoints],
    when present, have leading dimension N as well.  N may be 0. *)
Theorem call_index_synchronized
  (rasterize : Segmentation -> nat -> nat -> result (tensor Z))
  (self : ConvertCocoPolysToMask) (image image' : Image)
  (target : RawTarget) (t : Target) :
  ConvertCocoPolysToMask_call rasterize self image target = Ok (image', t) ->
  exists boxes0,
    convert_boxes (fst (image_size image)) (snd (image_size image))
      (List.filter not_crowd (raw_annotations target)) = Ok boxes0 /\
    let N := count_true (keep_mask boxes0) in
    len (target_boxes t) = N /\
    len (target_labels t) = N /\
    len (target_area t) = N /\
    len (target_iscrowd t) = N /\
    (forall m, target_masks t = Some m -> len m = N) /\
    (forall k, target_keypoints t = Some k -> len k = N).
Proof.
  unfold ConvertCocoPolysToMask_call.
  destruct (image_size image) as [w h]. simpl fst; simpl snd.
  intros H. inv_bind H.
  injection H as _ <-. simpl.
  exists v0. split; [reflexivity|].
  repeat split; eauto using index_mask_len, index_mask_opt_len.
Qed.

Lemma call_index_synchronized_witness :
  exists image' t,
    ConvertCocoPolysToMask_call blank_rasterize {| return_masks := true |}
      image_6x4 sample_6x4 = Ok (image', t) /\
    len (target_boxes t) = 1 /\ len (target_labels t) = 1 /\
    len (target_area t) = 1 /\ len (target_iscrowd t) = 1 /\
    (forall m, target_masks t = Some m -> len m = 1) /\
    (forall k, target_keypoints t = Some k -> len k = 1).
Proof.
  destruct (ConvertCocoPolysToMask_call blank_rasterize {| return_masks := true |}
              image_6x4 sample_6x4) as [[image' t]|e] eqn:E;
    [| vm_compute in E; discriminate E].
  exists image', t. split; [reflexivity|].
  destruct (call_index_synchronized _ _ _ _ _ _ E) as (boxes0 & Hb & HN).
  vm_compute in Hb. injection Hb as <-. exact HN.
Defined.

(* ===================================================================== *)
(** ** Degenerate boxes *)

(** C2. On a 640x480 image, the single annotation
    [{bbox: [100,100,50,0], category_id: 3, area: 0, iscrowd: 0}]
    normalises (mask mode off, the default) to a target whose [boxes],
    [labels], [area] and [iscrowd] all have length 0, whatever the
    image id. *)
Theorem zero_height_box_dropped
  (rasterize : Segmentation -> nat -> nat -> result (tensor Z))
  (image_id : Z) :
  fits_int64 image_id = true ->
  exists t,
    ConvertCocoPolysToMask_call rasterize {| return_masks := false |}
      image_640x480
      {| raw_image_id := image_id;
         raw_annotations := [mk_obj [100; 100; 50; 0]%Q 3 0 (Some 0%Z)] |}
    = Ok (image_640x480, t) /\
    target_boxes t = Tensor [0; 4] [] /\
    len (target_boxes t) = 0 /\
    len (target_labels t) = 0 /\
    len (target_area t) = 0 /\
    len (target_iscrowd t) = 0.
Proof.
  intros Hid. eexists. split.
  - unfold ConvertCocoPolysToMask_call.
    cbn [image_640x480 image_size raw_image_id].
    assert (Hten : tensor_int64 [image_id] = Ok (tensor_1d [image_id])).
    { unfold tensor_int64. cbn [forallb]. rewrite Hid. reflexivity. }
    rewrite Hten. vm_compute. reflexivity.
  - repeat split.
Qed.

Lemma zero_height_box_dropped_witness :
  fits_int64 139 = true /\
  exists t,
    ConvertCocoPolysToMask_call blank_rasterize {| return_masks := false |}
      image_640x480
      {| raw_image_id := 139;
         raw_annotations := [mk_obj [100; 100; 50; 0]%Q 3 0 (Some 0%Z)] |}
    = Ok (image_640x480, t) /\
    target_boxes t = Tensor [0; 4] [] /\
    len (target_boxes t) = 0 /\
    len (target_labels t) = 0 /\
    len (target_area t) = 0 /\
    len (target_iscrowd t) = 0.
Proof.
  split; [reflexivity|].
  apply (zero_height_box_dropped blank_rasterize 139). reflexivity.
Defined.

(* ===================================================================== *)
(** ** Box conversion and clamping *)

Lemma Qplus_comm_eq (a b : Q) : (a + b)%Q = (b + a)%Q.
Proof.
  destruct a as [an ad], b as [bn bd]. unfold Qplus. simpl.
  f_equal; [apply Z.add_comm | apply Pos.mul_comm].
Qed.

Lemma clamp_range (lo hi x : Q) :
  (lo <= hi)%Q -> (lo <= clamp lo hi x)%Q /\ (clamp lo hi x <= hi)%Q.
Proof.
  intros Hle. unfold clamp. split.
  - apply Q.min_glb; [apply Q.le_max_r | exact Hle].
  - apply Q.le_min_r.
Qed.

Lemma clamp_inside (lo hi x : Q) :
  (lo <= x)%Q -> (x <= hi)%Q -> (clamp lo hi x == x)%Q.
Proof.
  intros H1 H2. unfold clamp.
  rewrite (Q.max_l x lo H1). apply Q.min_l. exact H2.
Qed.

Lemma QofNat_nonneg (n : nat) : (0 <= QofNat n)%Q.
Proof.
  unfold QofNat, Qle. simpl. lia.
Qed.

Lemma row_pipeline (w h : nat) (b : Q * Q * Q * Q) :
  clamp_stride2 1 (QofNat h) (clamp_stride2 0 (QofNat w) (add_xy (bbox_list b)))
  = xyxy_clamped w h b.
Proof.
  destruct b as [[[x y] bw] bh]. cbn.
  rewrite (Qplus_comm_eq bw x), (Qplus_comm_eq bh y). reflexivity.
Qed.

Lemma chunks_concat {A} (c : nat) (l : list (list A)) :
  Forall (fun r => length r = c) l ->
  chunks (length l) c (concat l) = l.
Proof.
  induction 1 as [|r l Hr _ IH]; simpl; [reflexivity|].
  assert (Ht : firstn c (r ++ concat l) = r)
    by (rewrite <- Hr; apply take_app_length).
  assert (Hd : skipn c (r ++ concat l) = concat l)
    by (rewrite <- Hr; apply drop_app_length).
  rewrite Ht, Hd, IH. reflexivity.
Qed.

Lemma rows_uniform {A} (c : nat) (l : list (list A)) :
  Forall (fun r => length r = c) l ->
  rows (Tensor [length l; c] (concat l)) = l.
Proof.
  intros H. unfold rows, len. simpl. rewrite Nat.mul_1_r.
  apply chunks_concat. exact H.
Qed.

Lemma map_rows_uniform {A} (c : nat) (f : list A -> list A) (l : list (list A)) :
  Forall (fun r => length r = c) l ->
  map_rows f (Tensor [length l; c] (concat l))
  = Tensor [length (List.map f l); c] (concat (List.map f l)).
Proof.
  intros H. unfold map_rows. rewrite (rows_uniform c l H).
  simpl. rewrite length_map. reflexivity.
Qed.

Lemma rmap_getitem_Some {A B} (key : string) (g : A -> option B)
      (l : list A) (xs : list B) :
  List.map g l = List.map Some xs ->
  rmap (fun obj => getitem key (g obj)) l = Ok xs.
Proof.
  revert xs. induction l as [|a l IH]; intros [|x xs] H; simpl in H;
    try discriminate; [reflexivity|].
  injection H as Ha Hl. simpl. rewrite Ha. simpl.
  unfold mbind, result_bind. rewrite (IH xs Hl). reflexivity.
Qed.

(** Storing rows that pass both checks leaves them as they are. *)
Lemma rmap_store_row_uniform (k : nat) (l : list (list Q)) :
  Forall (fun r => length r = k) l ->
  Forall (fun r => forallb fits_double r = true) l ->
  rmap (store_row k) l = Ok l.
Proof.
  induction l as [|r l IH]; intros Hl Hf; [reflexivity|].
  inversion Hl as [|? ? Hr Hl']; inversion Hf as [|? ? Hfr Hf']; subst.
  cbn [rmap]. unfold mbind, result_bind.
  rewrite (IH Hl' Hf'). unfold store_row.
  rewrite Nat.eqb_refl, Hfr. reflexivity.
Qed.

Lemma rmap_store_row_Ok (k : nat) (l stored : list (list Q)) :
  rmap (store_row k) l = Ok stored ->
  stored = l /\
  Forall (fun r => length r = k) l /\
  Forall (fun r => forallb fits_double r = true) l.
Proof.
  revert stored. induction l as [|r l IH]; intros stored H; cbn [rmap] in H.
  - injection H as <-. repeat split; constructor.
  - unfold mbind, result_bind in H.
    destruct (store_row k r) as [r'|] eqn:Er; [|discriminate H].
    cbn [rbind] in H.
    destruct (rmap (store_row k) l) as [l'|] eqn:El; [|discriminate H].
    cbn [rbind] in H. injection H as <-.
    destruct (IH l' eq_refl) as (-> & Hlen & Hfit).
    unfold store_row in Er.
    destruct (Nat.eqb_spec (length r) k) as [Hk|]; [|discriminate Er].
    destruct (forallb fits_double r) eqn:Hf; [|discriminate Er].
    injection Er as <-.
    split; [reflexivity|]. split; constructor; assumption.
Qed.

Lemma as_tensor_float32_uniform (c : nat) (r : list Q) (l : list (list Q)) :
  Forall (fun r' => length r' = c) (r :: l) ->
  Forall (fun r' => forallb fits_double r' = true) (r :: l) ->
  as_tensor_float32 (r :: l) = Ok (Tensor [S (length l); c] (concat (r :: l))).
Proof.
  intros H Hf. unfold as_tensor_float32, mbind, result_bind.
  inversion H as [|? ? Hr _]; subst.
  rewrite (rmap_store_row_uniform (length r) (r :: l) H Hf). reflexivity.
Qed.

Lemma as_tensor_float32_Ok (r : list Q) (l : list (list Q)) (t : tensor Q) :
  as_tensor_float32 (r :: l) = Ok t ->
  t = Tensor [S (length l); length r] (concat (r :: l)) /\
  Forall (fun r' => length r' = length r) (r :: l).
Proof.
  unfold as_tensor_float32, mbind, result_bind.
  destruct (rmap (store_row (length r)) (r :: l)) as [stored|] eqn:E;
    [|discriminate].
  cbn [rbind]. intros H. injection H as <-.
  destruct (rmap_store_row_Ok _ _ _ E) as (-> & Hlen & _).
  split; [reflexivity | exact Hlen].
Qed.

(** A list that converts holds only numbers a double can take. *)
Lemma as_tensor_float32_fits (l : list (list Q)) (t : tensor Q) :
  as_tensor_float32 l = Ok t ->
  Forall (fun r => forallb fits_double r = true) l.
Proof.
  destruct l as [|r l]; [constructor|].
  unfold as_tensor_float32, mbind, result_bind.
  destruct (rmap (store_row (length r)) (r :: l)) as [stored|] eqn:E;
    [|discriminate].
  intros _. exact (proj2 (proj2 (rmap_store_row_Ok _ _ _ E))).
Qed.

(** [torch.as_tensor(boxes, dtype=torch.float32).reshape(-1, 4)] on rows
    of four numbers, including the case of no row at all. *)
Lemma boxes_tensor_uniform (l : list (list Q)) :
  Forall (fun r => length r = 4) l ->
  Forall (fun r => forallb fits_double r = true) l ->
  rbind (as_tensor_float32 l) (reshape_infer [] [4])
  = Ok (Tensor [length l; 4] (concat l)).
Proof.
  intros H Hf. destruct l as [|r l]; [reflexivity|].
  rewrite (as_tensor_float32_uniform 4 r l H Hf). cbn [rbind].
  unfold reshape_infer. cbn [app numel fold_right shape data].
  replace (S (length l) * (4 * 1)) with (S (length l) * 4) by lia.
  rewrite Nat.Div0.mod_mul, Nat.div_mul by discriminate.
  reflexivity.
Qed.

Lemma Forall_length_map {A B} (c : nat) (g : A -> list B) (l : list A) :
  (forall a, length (g a) = c) ->
  Forall (fun r => length r = c) (List.map g l).
Proof.
  intros Hg. apply Forall_forall. intros r Hin.
  apply list_elem_of_In, in_map_iff in Hin as (a & <- & _). apply Hg.
Qed.

Lemma rmap_getitem_inv {A B} (key : string) (g : A -> option B)
      (l : list A) (xs : list B) :
  rmap (fun obj => getitem key (g obj)) l = Ok xs ->
  List.map g l = List.map Some xs.
Proof.
  revert xs. induction l as [|a l IH]; intros xs H; simpl in H.
  - injection H as <-. reflexivity.
  - inv_bind H. injection H as <-. simpl. f_equal.
    + destruct (g a); [simpl in *; congruence | discriminate].
    + apply IH. reflexivity.
Qed.

Lemma Forall_fits_map (bs : list (Q * Q * Q * Q)) :
  Forall (fun b => forallb fits_double (bbox_list b) = true) bs <->
  Forall (fun r => forallb fits_double r = true) (List.map bbox_list bs).
Proof. rewrite Forall_map. reflexivity. Qed.

(** Lines 85-90 on well-formed boxes: one row per annotation, in order. *)
Lemma convert_boxes_forward (w h : nat) (anno : list RawAnnotation)
      (bs : list (Q * Q * Q * Q)) :
  List.map obj_bbox anno = List.map (fun b => Some (bbox_list b)) bs ->
  Forall (fun b => forallb fits_double (bbox_list b) = true) bs ->
  convert_boxes w h anno
  = Ok (Tensor [length bs; 4] (concat (List.map (xyxy_clamped w h) bs))).
Proof.
  intros Hb Hfit. unfold convert_boxes, mbind, result_bind.
  rewrite <- (map_map bbox_list Some) in Hb.
  rewrite (rmap_getitem_Some "bbox" obj_bbox anno _ Hb). cbn [rbind].
  pose proof (boxes_tensor_uniform (List.map bbox_list bs)) as Ht.
  destruct (as_tensor_float32 (List.map bbox_list bs)) as [t0|e];
    cbn [rbind] in Ht |- *.
  2:{ discriminate Ht.
      - apply Forall_length_map. intros [[[? ?] ?] ?]. reflexivity.
      - apply Forall_fits_map, Hfit. }
  rewrite Ht.
  2:{ apply Forall_length_map. intros [[[? ?] ?] ?]. reflexivity. }
  2:{ apply Forall_fits_map, Hfit. }
  cbn [rbind].
  rewrite map_rows_uniform
    by (apply Forall_length_map; intros [[[? ?] ?] ?]; reflexivity).
  rewrite map_map.
  rewrite map_rows_uniform
    by (apply Forall_length_map; intros [[[? ?] ?] ?]; reflexivity).
  rewrite map_map.
  rewrite map_rows_uniform
    by (apply Forall_length_map; intros [[[? ?] ?] ?]; reflexivity).
  rewrite map_map, !length_map.
  do 3 f_equal. apply map_ext. intros b. apply row_pipeline.
Qed.

Lemma map_Some_inj {A} (l1 l2 : list A) :
  List.map Some l1 = List.map Some l2 -> l1 = l2.
Proof.
  revert l2. induction l1 as [|x l1 IH]; intros [|y l2] H; try discriminate;
    [reflexivity|].
  simpl in H. injection H as -> H. f_equal. apply IH, H.
Qed.

(** When lines 85-90 succeed on well-formed boxes, every number fitted a
    double and the tensor is the one above. *)
Lemma convert_boxes_fits (w h : nat) (anno : list RawAnnotation)
      (bs : list (Q * Q * Q * Q)) (boxes0 : tensor Q) :
  List.map obj_bbox anno = List.map (fun b => Some (bbox_list b)) bs ->
  convert_boxes w h anno = Ok boxes0 ->
  Forall (fun b => forallb fits_double (bbox_list b) = true) bs.
Proof.
  intros Hb H. unfold convert_boxes in H. inv_bind H.
  match goal with
  | Hr : rmap _ _ = Ok ?bl, Ht : as_tensor_float32 ?bl = Ok _ |- _ =>
      apply (rmap_getitem_inv "bbox" obj_bbox anno) in Hr;
      rewrite Hb, <- (map_map bbox_list Some) in Hr;
      apply map_Some_inj in Hr; subst bl;
      apply Forall_fits_map; exact (as_tensor_float32_fits _ _ Ht)
  end.
Qed.

Lemma convert_boxes_spec (w h : nat) (anno : list RawAnnotation)
      (bs : list (Q * Q * Q * Q)) (boxes0 : tensor Q) :
  List.map obj_bbox anno = List.map (fun b => Some (bbox_list b)) bs ->
  convert_boxes w h anno = Ok boxes0 ->
  convert_boxes w h anno
  = Ok (Tensor [length bs; 4] (concat (List.map (xyxy_clamped w h) bs))).
Proof.
  intros Hb H. apply convert_boxes_forward; [exact Hb|].
  exact (convert_boxes_fits w h anno bs boxes0 Hb H).
Qed.

(** A successful [__call__] went through lines 85-90. *)
Lemma call_convert_boxes_ok
  (rasterize : Segmentation -> nat -> nat -> result (tensor Z))
  (self : ConvertCocoPolysToMask) (image image' : Image)
  (target : RawTarget) (t : Target) :
  ConvertCocoPolysToMask_call rasterize self image target = Ok (image', t) ->
  exists boxes0,
    convert_boxes (fst (image_size image)) (snd (image_size image))
      (List.filter not_crowd (raw_annotations target)) = Ok boxes0.
Proof.
  unfold ConvertCocoPolysToMask_call.
  destruct (image_size image) as [w h]. simpl fst; simpl snd.
  intros H. inv_bind H. eauto.
Qed.

Lemma select_map_filter {A} (p : A -> bool) (l : list A) :
  select (List.map p l) l = List.filter p l.
Proof.
  induction l as [|x l IH]; simpl; [reflexivity|].
  destruct (p x); rewrite IH; reflexivity.
Qed.

(** Line 108 on a tensor of uniform rows: the rows that pass the
    keep-mask, in order. *)
Lemma index_mask_keep_uniform (l : list (list Q)) :
  Forall (fun r => length r = 4) l ->
  let boxes := Tensor [length l; 4] (concat l) in
  index_mask boxes (keep_mask boxes)
  = Ok (Tensor [length (List.filter keep_row l); 4]
               (concat (List.filter keep_row l))).
Proof.
  intros H boxes. unfold index_mask, keep_mask. subst boxes.
  rewrite (rows_uniform 4 l H). cbn [shape].
  rewrite length_map, Nat.eqb_refl, select_map_filter. reflexivity.
Qed.

(** C3. When the non-crowd annotations carry the boxes [bs], each
    (x, y, w, h), lines 85-90 produce one row (x, y, x+w, y+h) per
    annotation, x-coordinates clamped to [0, image_width] and
    y-coordinates to [0, image_height] (a coordinate inside the range is
    left as it is); the target's [boxes] are those rows, in order, that
    pass the keep-mask.  On a 640x480 image
    [{bbox: [100,100,50,60], category_id: 3, area: 3000, iscrowd: 0}]
    gives [boxes == [[100,100,150,160]]]. *)
Theorem bbox_to_clamped_corners
  (rasterize : Segmentation -> nat -> nat -> result (tensor Z))
  (self : ConvertCocoPolysToMask) (image image' : Image)
  (target : RawTarget) (t : Target) (bs : list (Q * Q * Q * Q)) :
  let w := fst (image_size image) in
  let h := snd (image_size image) in
  let anno := List.filter not_crowd (raw_annotations target) in
  let clamped := List.map (xyxy_clamped w h) bs in
  List.map obj_bbox anno = List.map (fun b => Some (bbox_list b)) bs ->
  ConvertCocoPolysToMask_call rasterize self image target = Ok (image', t) ->
  convert_boxes w h anno = Ok (Tensor [length bs; 4] (concat clamped)) /\
  target_boxes t = Tensor [length (List.filter keep_row clamped); 4]
                          (concat (List.filter keep_row clamped)) /\
  (forall v, (0 <= clamp 0 (QofNat w) v)%Q /\ (clamp 0 (QofNat w) v <= QofNat w)%Q) /\
  (forall v, (0 <= clamp 0 (QofNat h) v)%Q /\ (clamp 0 (QofNat h) v <= QofNat h)%Q) /\
  (forall hi v, (0 <= v)%Q -> (v <= hi)%Q -> (clamp 0 hi v == v)%Q) /\
  (exists t0,
      ConvertCocoPolysToMask_call rasterize {| return_masks := false |}
        image_640x480
        {| raw_image_id := 1;
           raw_annotations := [mk_obj [100; 100; 50; 60]%Q 3 3000 (Some 0%Z)] |}
      = Ok (image_640x480, t0) /\
      target_boxes t0 = Tensor [1; 4] [100; 100; 150; 160]%Q).
Proof.
  intros w h anno clamped Hb Hcall.
  destruct (call_convert_boxes_ok _ _ _ _ _ _ Hcall) as [b0 Hb0].
  pose proof (convert_boxes_spec w h anno bs b0 Hb Hb0) as Hconv. clear Hb0.
  split; [exact Hconv|]. split; [|split; [|split; [|split]]].
  - unfold ConvertCocoPolysToMask_call in Hcall.
    destruct (image_size image) as [w0 h0]. simpl in w, h. subst w h.
    fold anno in Hcall. inv_bind Hcall. injection Hcall as _ <-.
    cbn [target_boxes].
    injection Hconv as ->. subst clamped.
    match goal with
    | Hi : index_mask ?b (keep_mask ?b) = Ok _ |- _ =>
        rewrite <- (length_map (xyxy_clamped w0 h0) bs) in Hi;
        rewrite index_mask_keep_uniform in Hi;
        [injection Hi as <-; reflexivity|]
    end.
    apply Forall_length_map. intros [[[? ?] ?] ?]. reflexivity.
  - intros v. apply clamp_range, QofNat_nonneg.
  - intros v. apply clamp_range, QofNat_nonneg.
  - intros hi v. apply clamp_inside.
  - eexists. split; [vm_compute; reflexivity | reflexivity].
Qed.

Lemma bbox_to_clamped_corners_witness :
  let bs := [(1, 1, 2, 2); (2, 1, 3, 0); (4, 2, 9, 1)]%Q in
  let target :=
    {| raw_image_id := 42;
       raw_annotations :=
         [mk_obj [1; 1; 2; 2]%Q 3 4 None; mk_obj [0; 0; 9; 9]%Q 8 81 (Some 1%Z);
          mk_obj [2; 1; 3; 0]%Q 5 0 (Some 0%Z); mk_obj [4; 2; 9; 1]%Q 5 9 None] |} in
  exists t,
    ConvertCocoPolysToMask_call blank_rasterize {| return_masks := false |}
      image_6x4 target = Ok (image_6x4, t) /\
    convert_boxes 6 4 (List.filter not_crowd (raw_annotations target))
    = Ok (Tensor [3; 4] [1; 1; 3; 3; 2; 1; 5; 1; 4; 2; 6; 3]%Q) /\
    target_boxes t = Tensor [2; 4] [1; 1; 3; 3; 4; 2; 6; 3]%Q.
Proof.
  intros bs target.
  destruct (ConvertCocoPolysToMask_call blank_rasterize {| return_masks := false |}
              image_6x4 target) as [[image' t]|e] eqn:E;
    [| vm_compute in E; discriminate E].
  pose proof (call_returns_image _ _ _ _ _ _ E) as ->. exists t. split; [reflexivity|].
  destruct (bbox_to_clamped_corners blank_rasterize
              {| return_masks := false |} image_6x4 image_6x4 target t bs
              eq_refl E) as (Hc & Ht & _).
  split; [exact Hc | exact Ht].
Defined.

(* ===================================================================== *)
(** ** Keypoints *)

(** [keypoints.view(n, -1, 3)] on an (n, L) tensor, n > 0: L must be a
    multiple of 3 and the result is (n, L/3, 3). *)
Lemma view_keypoints_Ok (n L : nat) (d : list Q) (t : tensor Q) :
  n <> 0 ->
  reshape_infer [n] [3] (Tensor [n; L] d) = Ok t ->
  exists K, L = K * 3 /\ t = Tensor [n; K; 3] d.
Proof.
  intros Hn. unfold reshape_infer. cbn [app numel fold_right shape data].
  rewrite !Nat.mul_1_r.
  destruct (Nat.eqb_spec (n * 3) 0) as [|_]; [lia|].
  destruct (Nat.eqb_spec ((n * L) mod (n * 3)) 0) as [Hm|]; [|discriminate].
  intros H. injection H as <-.
  rewrite Nat.Div0.mul_mod_distr_l in Hm.
  rewrite Nat.Div0.div_mul_cancel_l by lia.
  assert (HL : L mod 3 = 0) by nia.
  exists (L / 3). split; [|reflexivity].
  pose proof (Nat.div_mod_eq L 3). lia.
Qed.

(** Lines 99-105: presence of keypoints is decided by the first non-crowd
    annotation alone. *)
Lemma convert_keypoints_absent (anno : list RawAnnotation) :
  first_keypoints anno = None ->
  convert_keypoints anno = Ok None.
Proof.
  destruct anno as [|obj0 anno]; [reflexivity|]. simpl. intros H.
  rewrite H. reflexivity.
Qed.

Lemma convert_keypoints_present (anno : list RawAnnotation) (k0 : list Q)
      (r : option (tensor Q)) :
  first_keypoints anno = Some k0 ->
  convert_keypoints anno = Ok r ->
  exists K kps,
    List.map obj_keypoints anno = List.map Some kps /\
    Forall (fun k => length k = K * 3) kps /\
    r = Some (Tensor [length anno; K; 3] (concat kps)).
Proof.
  destruct anno as [|obj0 anno']; [discriminate|].
  intros H0. cbn in H0. unfold convert_keypoints.
  rewrite bool_decide_eq_true_2 by (rewrite H0; eauto).
  remember (obj0 :: anno') as anno eqn:Ea.
  intros H. inv_bind H.
  match goal with
  | Hr : rmap _ _ = Ok ?l |- _ =>
      pose proof (rmap_length _ _ _ Hr) as Hlen;
      apply (rmap_getitem_inv "keypoints" obj_keypoints anno) in Hr;
      destruct l as [|r0 kps]; [subst anno; discriminate Hlen|]
  end.
  match goal with
  | Ht : as_tensor_float32 _ = Ok _ |- _ =>
      apply as_tensor_float32_Ok in Ht as [-> Hall]
  end.
  cbn [len shape hd Nat.eqb] in H. inv_bind H.
  match goal with
  | Hv : reshape_infer _ _ _ = Ok _ |- _ =>
      apply view_keypoints_Ok in Hv as (K & HK & ->); [|discriminate]
  end.
  injection H as <-. exists K, (r0 :: kps). split; [assumption|]. split.
  - rewrite <- HK. exact Hall.
  - rewrite <- Hlen. reflexivity.
Qed.

(** The stages of a successful [__call__], for the lemmas below. *)
Lemma call_inv
  (rasterize : Segmentation -> nat -> nat -> result (tensor Z))
  (self : ConvertCocoPolysToMask) (image image' : Image)
  (target : RawTarget) (t : Target) :
  ConvertCocoPolysToMask_call rasterize self image target = Ok (image', t) ->
  let w := fst (image_size image) in
  let h := snd (image_size image) in
  let anno := List.filter not_crowd (raw_annotations target) in
  exists boxes0 masks0 kp0,
    convert_boxes w h anno = Ok boxes0 /\
    (if return_masks self
     then exists segs m,
         rmap (fun obj => getitem "segmentation" (obj_segmentation obj)) anno
         = Ok segs /\
         convert_coco_poly_to_mask rasterize segs h w = Ok m /\
         masks0 = Some m
     else masks0 = None) /\
    convert_keypoints anno = Ok kp0 /\
    index_mask boxes0 (keep_mask boxes0) = Ok (target_boxes t) /\
    index_mask_opt masks0 (keep_mask boxes0) = Ok (target_masks t) /\
    index_mask_opt kp0 (keep_mask boxes0) = Ok (target_keypoints t).
Proof.
  unfold ConvertCocoPolysToMask_call.
  destruct (image_size image) as [w h]. simpl fst; simpl snd.
  intros H. inv_bind H. injection H as _ <-. cbn.
  match goal with
  | Hb : convert_boxes _ _ _ = Ok ?b,
    Hm : (if return_masks self then _ else _) = Ok ?m,
    Hk : convert_keypoints _ = Ok ?k |- _ =>
      exists b, m, k; repeat split; try assumption;
      destruct (return_masks self); [|congruence];
      inv_bind Hm; injection Hm as <-; eauto
  end.
Qed.

(** C4 (as the code has it). The first non-crowd annotation alone decides:
    when it carries no [keypoints] (or there is no annotation), the key
    is absent from the target, whatever later annotations carry; when it
    carries them, a returned target has a [keypoints] tensor of shape
    (N, K, 3), N the number of surviving boxes, and every non-crowd
    annotation carried 3K keypoint numbers. *)
Theorem keypoints_follow_first_object
  (rasterize : Segmentation -> nat -> nat -> result (tensor Z))
  (self : ConvertCocoPolysToMask) (image image' : Image)
  (target : RawTarget) (t : Target) :
  ConvertCocoPolysToMask_call rasterize self image target = Ok (image', t) ->
  let anno := List.filter not_crowd (raw_annotations target) in
  (first_keypoints anno = None -> target_keypoints t = None) /\
  (forall k0, first_keypoints anno = Some k0 ->
     exists K kps kp,
       List.map obj_keypoints anno = List.map Some kps /\
       Forall (fun k => length k = K * 3) kps /\
       target_keypoints t = Some kp /\
       shape kp = [len (target_boxes t); K; 3]).
Proof.
  intros Hcall anno.
  destruct (call_inv _ _ _ _ _ _ Hcall)
    as (boxes0 & masks0 & kp0 & _ & _ & Hkp & Hib & _ & Hik).
  fold anno in Hkp. split.
  - intros Hnone. rewrite (convert_keypoints_absent anno Hnone) in Hkp.
    injection Hkp as <-. simpl in Hik. congruence.
  - intros k0 Hsome.
    destruct (convert_keypoints_present anno k0 kp0 Hsome Hkp)
      as (K & kps & Hall & Hlen & ->).
    cbn [index_mask_opt] in Hik. inv_bind Hik.
    match goal with
    | Hi : index_mask _ _ = Ok ?kp |- _ =>
        exists K, kps, kp; split; [exact Hall|]; split; [exact Hlen|];
        split; [congruence|];
        apply index_mask_Ok in Hi as [_ ->]
    end.
    cbn [tl shape].
    rewrite (index_mask_len _ _ _ Hib). reflexivity.
Qed.

Lemma keypoints_follow_first_object_witness :
  exists t,
    ConvertCocoPolysToMask_call blank_rasterize {| return_masks := true |}
      image_6x4 sample_6x4 = Ok (image_6x4, t) /\
    exists kp, target_keypoints t = Some kp /\ shape kp = [1; 2; 3].
Proof.
  destruct (ConvertCocoPolysToMask_call blank_rasterize {| return_masks := true |}
              image_6x4 sample_6x4) as [[image' t]|e] eqn:E;
    [| vm_compute in E; discriminate E].
  pose proof (call_returns_image _ _ _ _ _ _ E) as ->.
  exists t. split; [reflexivity|].
  destruct (keypoints_follow_first_object blank_rasterize
              {| return_masks := true |} image_6x4 image_6x4 sample_6x4 t E)
    as [_ Hp].
  destruct (Hp [1; 1; 2; 2; 2; 1]%Q eq_refl) as (K & kps & kp & _ & _ & Hk & _).
  exists kp. split; [exact Hk|].
  vm_compute in E. injection E as <-. cbn in Hk. injection Hk as <-.
  reflexivity.
Defined.

(** C4 as stated fails: the second non-crowd annotation carries
    keypoints, the first does not, and the target has no [keypoints]
    key. *)
Lemma keypoints_any_object_counterexample :
  let target :=
    {| raw_image_id := 42;
       raw_annotations :=
         [mk_obj [1; 1; 2; 2]%Q 3 4 None;
          kp_obj [2; 1; 3; 2]%Q 5 [2; 1; 2; 3; 1; 0]%Q] |} in
  (exists obj, In obj (List.filter not_crowd (raw_annotations target)) /\
               is_Some (obj_keypoints obj)) /\
  exists t,
    ConvertCocoPolysToMask_call blank_rasterize {| return_masks := false |}
      image_6x4 target = Ok (image_6x4, t) /\
    target_keypoints t = None.
Proof.
  intros target. split.
  - exists (kp_obj [2; 1; 3; 2]%Q 5 [2; 1; 2; 3; 1; 0]%Q).
    split; [right; left; reflexivity | eexists; reflexivity].
  - eexists. split; [vm_compute; reflexivity | reflexivity].
Qed.

(* ===================================================================== *)
(** ** Targets without objects *)

Lemma view_keypoints_uniform (n K : nat) (d : list Q) :
  n <> 0 ->
  reshape_infer [n] [3] (Tensor [n; K * 3] d) = Ok (Tensor [n; K; 3] d).
Proof.
  intros Hn. unfold reshape_infer. cbn [app numel fold_right shape data].
  rewrite !Nat.mul_1_r.
  destruct (Nat.eqb_spec (n * 3) 0) as [|_]; [lia|].
  rewrite Nat.Div0.mul_mod_distr_l, Nat.Div0.mod_mul, Nat.mul_0_r.
  cbn [Nat.eqb]. rewrite Nat.Div0.div_mul_cancel_l by lia.
  rewrite Nat.div_mul by discriminate. reflexivity.
Qed.

Lemma convert_keypoints_ok (anno : list RawAnnotation) :
  keypoints_well_formed anno ->
  exists kp0,
    convert_keypoints anno = Ok kp0 /\
    forall kp, kp0 = Some kp -> exists rest, shape kp = length anno :: rest.
Proof.
  intros [Hnone | (K & kps & Hall & Hlen & Hfit)].
  - exists None. split; [apply convert_keypoints_absent, Hnone | discriminate].
  - destruct anno as [|obj0 anno'].
    { exists None. split; [reflexivity | discriminate]. }
    destruct kps as [|k0 kps']; [discriminate Hall|].
    assert (Hn : length kps' = length anno').
    { apply (f_equal (@length _)) in Hall. simpl in Hall.
      rewrite !length_map in Hall. lia. }
    exists (Some (Tensor [length (obj0 :: anno'); K; 3] (concat (k0 :: kps')))).
    split; [|intros kp [= <-]; eauto].
    unfold convert_keypoints.
    rewrite bool_decide_eq_true_2 by (injection Hall as -> _; eauto).
    unfold mbind, result_bind.
    rewrite (rmap_getitem_Some "keypoints" obj_keypoints _ _ Hall).
    cbn [rbind].
    rewrite (as_tensor_float32_uniform (K * 3) _ _ Hlen Hfit).
    cbn [rbind len shape hd Nat.eqb].
    rewrite view_keypoints_uniform by discriminate. cbn [rbind length].
    rewrite Hn. reflexivity.
Qed.

(** [t[keep]] when no flag of [keep] is set. *)
Lemma select_none {A} (keep : list bool) (l : list A) :
  count_true keep = 0 -> select keep l = [].
Proof.
  unfold count_true. revert l.
  induction keep as [|b keep IH]; intros [|x l] H; simpl in *; try reflexivity.
  destruct b; simpl in H; [discriminate | apply IH, H].
Qed.

Lemma index_mask_none {A} (t : tensor A) (keep : list bool) (rest : list nat) :
  shape t = length keep :: rest ->
  count_true keep = 0 ->
  index_mask t keep = Ok (Tensor (0 :: rest) []).
Proof.
  intros Hs H0. unfold index_mask. rewrite Hs, Nat.eqb_refl.
  rewrite (select_none keep (rows t) H0). reflexivity.
Qed.

Lemma not_crowd_iscrowd_zero (l : list RawAnnotation) :
  List.map (fun obj => match obj_iscrowd obj with
                       | Some c => c
                       | None => 0%Z
                       end) (List.filter not_crowd l)
  = repeat 0%Z (length (List.filter not_crowd l)).
Proof.
  induction l as [|obj l IH]; [reflexivity|].
  cbn [List.filter]. destruct (not_crowd obj) eqn:Enc; [|exact IH].
  cbn [List.map length repeat]. rewrite IH. f_equal.
  unfold not_crowd in Enc. destruct (obj_iscrowd obj) as [c|]; [|reflexivity].
  apply Z.eqb_eq, Enc.
Qed.

Lemma tensor_int64_zeros (n : nat) :
  tensor_int64 (repeat 0%Z n) = Ok (Tensor [n] (repeat 0%Z n)).
Proof.
  unfold tensor_int64, tensor_1d.
  assert (H : forallb fits_int64 (repeat 0%Z n) = true)
    by (induction n; simpl; auto).
  rewrite H, repeat_length. reflexivity.
Qed.

Section MaskShapes.

Variable rasterize : Segmentation -> nat -> nat -> result (tensor Z).

Lemma rasterized_masks (height width : nat) (segs : list Segmentation) :
  Forall (rasterizes rasterize height width) segs ->
  exists ms,
    rmap (fun polygons =>
            mask ← rasterize polygons height width;
            let mask := if length (shape mask) <? 3
                        then unsqueeze_last mask else mask in
            any_dim2 mask) segs = Ok ms /\
    length ms = length segs /\
    Forall (fun m => shape m = [height; width]) ms.
Proof.
  induction 1 as [|seg segs (m & Hm & Hs) _ (ms & Hms & Hlen & Hall)].
  - exists []. repeat split; constructor.
  - cbn [rmap]. unfold mbind, result_bind in *. rewrite Hms, Hm.
    cbn [rbind].
    assert (Hany : exists m',
               any_dim2 (if length (shape m) <? 3
                         then unsqueeze_last m else m) = Ok m' /\
               shape m' = [height; width]).
    { destruct Hs as [Hs | [c Hs]]; rewrite Hs; cbn [length Nat.ltb Nat.leb];
        unfold any_dim2, unsqueeze_last; cbn [shape]; rewrite Hs;
        cbn [app]; eexists; split; reflexivity. }
    destruct Hany as (m' & -> & Hs'). cbn [rbind].
    exists (m' :: ms). split; [reflexivity|].
    split; [simpl; congruence | constructor; assumption].
Qed.

(** Lines 54-68: N bitmaps stack to (N, height, width), also for N = 0. *)
Lemma convert_coco_poly_to_mask_shape (height width : nat)
      (segs : list Segmentation) :
  Forall (rasterizes rasterize height width) segs ->
  exists masks,
    convert_coco_poly_to_mask rasterize segs height width = Ok masks /\
    shape masks = [length segs; height; width].
Proof.
  intros H. destruct (rasterized_masks height width segs H)
    as (ms & Hms & Hlen & Hall).
  unfold convert_coco_poly_to_mask. unfold mbind, result_bind in *.
  rewrite Hms. cbn [rbind]. destruct ms as [|m0 ms].
  - eexists. split; [reflexivity|]. rewrite <- Hlen. reflexivity.
  - unfold stack.
    assert (Hsh : forallb (fun t => bool_decide (shape t = shape m0)) (m0 :: ms)
                  = true).
    { apply forallb_forall. intros m Hin. apply bool_decide_eq_true_2.
      rewrite Forall_forall in Hall.
      rewrite (Hall m), (Hall m0); [reflexivity | | ].
      - apply list_elem_of_In. left. reflexivity.
      - apply list_elem_of_In, Hin. }
    rewrite Hsh. eexists. split; [reflexivity|].
    cbn [shape]. rewrite Hlen. f_equal.
    inversion Hall; assumption.
Qed.

End MaskShapes.

Lemma map_Some_length {A B} (g : A -> option B) (l : list A) (xs : list B) :
  List.map g l = List.map Some xs -> length xs = length l.
Proof.
  intros H. apply (f_equal (@length _)) in H.
  rewrite !length_map in H. congruence.
Qed.

Lemma count_true_all_false {A} (p : A -> bool) (l : list A) :
  Forall (fun x => p x = false) l -> count_true (List.map p l) = 0.
Proof.
  unfold count_true. induction 1 as [|x l Hx _ IH]; [reflexivity|].
  simpl. rewrite Hx. exact IH.
Qed.

Lemma fits_int64_double (z : Z) :
  fits_int64 z = true -> fits_double (inject_Z z) = true.
Proof.
  unfold fits_int64, fits_double, double_overflow, int64_min, int64_max.
  intros H. apply andb_true_iff in H as [Hlo Hhi].
  apply Z.leb_le in Hlo, Hhi.
  apply negb_true_iff. unfold Qle_bool, Qabs, inject_Z. cbn [Qnum Qden].
  apply Z.leb_gt. rewrite !Z.mul_1_r.
  assert (HT : (2 ^ 63 < 2 ^ 1024 - 2 ^ 970)%Z)
    by (apply Z.ltb_lt; vm_compute; reflexivity).
  assert (H63 : (2 ^ 63 = 9223372036854775808)%Z) by reflexivity.
  rewrite H63 in *. lia.
Qed.

(** [torch.tensor] on numbers that are floats or int64 ints. *)
Lemma torch_tensor_ok (l : list PyNumber) :
  forallb (fits_dtype true) l = true ->
  torch_tensor l = Ok (tensor_1d (List.map py_value l)).
Proof.
  intros H. unfold torch_tensor.
  assert (Hall : forallb (fits_dtype (forallb is_py_int l)) l = true).
  { apply forallb_forall. intros n Hn.
    rewrite forallb_forall in H. specialize (H n Hn).
    destruct n as [z|q]; [|reflexivity]. cbn [fits_dtype] in *.
    destruct (forallb is_py_int l); [exact H | apply fits_int64_double, H]. }
  rewrite Hall. reflexivity.
Qed.

Lemma torch_tensor_Ok (l : list PyNumber) (t : tensor Q) :
  torch_tensor l = Ok t -> t = tensor_1d (List.map py_value l).
Proof.
  unfold torch_tensor. destruct (forallb _ l); [|discriminate].
  intros H. injection H as <-. reflexivity.
Qed.

(** Well-formed annotations none of whose boxes passes the keep-mask
    normalise to an empty target of the right shapes. *)
Lemma call_no_survivors
  (rasterize : Segmentation -> nat -> nat -> result (tensor Z))
  (self : ConvertCocoPolysToMask) (image : Image) (target : RawTarget)
  (bs : list (Q * Q * Q * Q)) :
  let w := fst (image_size image) in
  let h := snd (image_size image) in
  let anno := List.filter not_crowd (raw_annotations target) in
  fits_int64 (raw_image_id target) = true ->
  annotations_well_formed rasterize (return_masks self) w h anno bs ->
  Forall (fun b => keep_row (xyxy_clamped w h b) = false) bs ->
  exists t,
    ConvertCocoPolysToMask_call rasterize self image target = Ok (image, t) /\
    target_boxes t = Tensor [0; 4] [] /\
    target_labels t = Tensor [0] [] /\
    target_area t = Tensor [0] [] /\
    target_iscrowd t = Tensor [0] [] /\
    target_masks t = (if return_masks self
                      then Some (Tensor [0; h; w] []) else None).
Proof.
  intros w h anno Hid
         (Hb & Hbfit & (cs & Hc & Hfit) & (areas & Ha & Hafit) & Hm & Hkp) Hdeg.
  unfold ConvertCocoPolysToMask_call.
  destruct (image_size image) as [w0 h0]. simpl in w, h. subst w h.
  fold anno. unfold mbind, result_bind.
  assert (Hten : tensor_int64 [raw_image_id target]
                 = Ok (tensor_1d [raw_image_id target])).
  { unfold tensor_int64. cbn [forallb]. rewrite Hid. reflexivity. }
  rewrite Hten. cbn [rbind].
  rewrite (convert_boxes_forward w0 h0 anno bs Hb Hbfit). cbn [rbind].
  rewrite (rmap_getitem_Some "category_id" obj_category_id anno cs Hc).
  cbn [rbind]. unfold tensor_int64 at 1. rewrite Hfit. cbn [rbind].
  rewrite (rmap_getitem_Some "area" obj_area anno areas Ha).
  cbn [rbind]. rewrite (torch_tensor_ok areas Hafit).
  pose proof (not_crowd_iscrowd_zero (raw_annotations target)) as Hz.
  fold anno in Hz. rewrite Hz, tensor_int64_zeros. clear Hz.
  assert (Lb : length bs = length anno).
  { pose proof (f_equal (@length _) Hb) as L.
    rewrite !length_map in L. congruence. }
  pose proof (map_Some_length _ _ _ Hc) as Lc.
  pose proof (map_Some_length _ _ _ Ha) as La.
  (* the keep-mask has one flag per annotation and none is set *)
  assert (Hkeep : keep_mask (Tensor [length bs; 4]
                               (concat (List.map (xyxy_clamped w0 h0) bs)))
                  = List.map keep_row (List.map (xyxy_clamped w0 h0) bs)).
  { unfold keep_mask.
    rewrite <- (length_map (xyxy_clamped w0 h0) bs) at 1.
    rewrite rows_uniform; [reflexivity|].
    apply Forall_length_map. intros [[[? ?] ?] ?]. reflexivity. }
  rewrite Hkeep.
  set (keep := List.map keep_row (List.map (xyxy_clamped w0 h0) bs)).
  assert (Hk0 : count_true keep = 0).
  { subst keep. rewrite map_map. apply count_true_all_false, Hdeg. }
  assert (Hkl : length keep = length anno).
  { subst keep. rewrite !length_map. exact Lb. }
  (* masks and keypoints *)
  assert (Hmasks : exists masks0,
             (if return_masks self
              then rbind (rmap (fun obj => getitem "segmentation" (obj_segmentation obj)) anno)
                     (fun segmentations =>
                        rbind (convert_coco_poly_to_mask rasterize segmentations h0 w0)
                          (fun masks => Ok (Some masks)))
              else Ok None) = Ok masks0 /\
             index_mask_opt masks0 keep
             = Ok (if return_masks self
                   then Some (Tensor [0; h0; w0] []) else None)).
  { destruct (return_masks self).
    - destruct (Hm eq_refl) as (segs & Hs & Hr).
      rewrite (rmap_getitem_Some "segmentation" obj_segmentation anno segs Hs).
      cbn [rbind].
      destruct (convert_coco_poly_to_mask_shape rasterize h0 w0 segs Hr)
        as (m & -> & Hsh).
      cbn [rbind]. eexists. split; [reflexivity|].
      cbn [index_mask_opt]. unfold mbind, result_bind.
      rewrite (index_mask_none m keep [h0; w0]); [reflexivity | | exact Hk0].
      rewrite Hsh, Hkl, (map_Some_length _ _ _ Hs). reflexivity.
    - exists None. split; reflexivity. }
  destruct Hmasks as (masks0 & -> & Him). cbn [rbind].
  destruct (convert_keypoints_ok anno Hkp) as (kp0 & -> & Hks). cbn [rbind].
  rewrite (index_mask_none _ keep [4]);
    [| cbn [shape]; rewrite Hkl, Lb; reflexivity | exact Hk0].
  cbn [rbind].
  rewrite (index_mask_none _ keep []);
    [| cbn [shape tensor_1d]; rewrite Hkl, Lc; reflexivity | exact Hk0].
  cbn [rbind]. rewrite Him. cbn [rbind].
  assert (Hik : exists kp1, index_mask_opt kp0 keep = Ok kp1).
  { destruct kp0 as [kp|]; [|exists None; reflexivity].
    destruct (Hks kp eq_refl) as [rest Hrest].
    cbn [index_mask_opt]. unfold mbind, result_bind.
    rewrite (index_mask_none kp keep rest); [eexists; reflexivity | | exact Hk0].
    rewrite Hrest, Hkl. reflexivity. }
  destruct Hik as (kp1 & ->). cbn [rbind].
  rewrite (index_mask_none _ keep []);
    [| cbn [shape tensor_1d]; rewrite length_map, Hkl, La; reflexivity
     | exact Hk0].
  cbn [rbind].
  rewrite (index_mask_none _ keep []);
    [| cbn [shape]; rewrite Hkl; reflexivity | exact Hk0].
  cbn [rbind].
  eexists. split; [reflexivity|]. repeat split.
Qed.

Lemma filter_all_false {A} (p : A -> bool) (l : list A) :
  Forall (fun x => p x = false) l -> List.filter p l = [].
Proof.
  induction 1 as [|x l Hx _ IH]; [reflexivity|]. simpl. rewrite Hx. exact IH.
Qed.

(** C7. When no object survives -- the raw list is empty or holds only
    crowd annotations, or every remaining (well-formed) box is degenerate
    -- [__call__] does not raise: it returns a target whose [boxes] has
    shape (0, 4), whose [masks], in mask mode, has shape
    (0, height, width), and whose [labels], [area] and [iscrowd] have
    length 0. *)
Theorem no_surviving_object_target
  (rasterize : Segmentation -> nat -> nat -> result (tensor Z))
  (self : ConvertCocoPolysToMask) (image : Image) (target : RawTarget) :
  let w := fst (image_size image) in
  let h := snd (image_size image) in
  let anno := List.filter not_crowd (raw_annotations target) in
  fits_int64 (raw_image_id target) = true ->
  (Forall (fun obj => not_crowd obj = false) (raw_annotations target) \/
   exists bs,
     annotations_well_formed rasterize (return_masks self) w h anno bs /\
     Forall (fun b => keep_row (xyxy_clamped w h b) = false) bs) ->
  exists t,
    ConvertCocoPolysToMask_call rasterize self image target = Ok (image, t) /\
    shape (target_boxes t) = [0; 4] /\
    len (target_labels t) = 0 /\
    len (target_area t) = 0 /\
    len (target_iscrowd t) = 0 /\
    (return_masks self = true ->
     exists m, target_masks t = Some m /\ shape m = [0; h; w]) /\
    (return_masks self = false -> target_masks t = None).
Proof.
  intros w h anno Hid Hcase.
  assert (Hbs : exists bs,
             annotations_well_formed rasterize (return_masks self) w h anno bs /\
             Forall (fun b => keep_row (xyxy_clamped w h b) = false) bs).
  { destruct Hcase as [Hcrowd | Hbs]; [|exact Hbs].
    exists []. subst anno. rewrite (filter_all_false _ _ Hcrowd).
    split; [|constructor].
    split; [reflexivity|]. split; [constructor|].
    split; [exists []; split; reflexivity|].
    split; [exists []; split; reflexivity|]. split.
    - intros _. exists []. split; [reflexivity | constructor].
    - left. reflexivity. }
  destruct Hbs as (bs & Hwf & Hdeg).
  destruct (call_no_survivors rasterize self image target bs Hid Hwf Hdeg)
    as (t & Hcall & Hb & Hl & Ha & Hi & Hm).
  exists t. split; [exact Hcall|].
  rewrite Hb, Hl, Ha, Hi, Hm. repeat split.
  - intros ->. eexists. split; reflexivity.
  - intros ->. reflexivity.
Qed.

Lemma no_surviving_object_target_witness :
  fits_int64 (raw_image_id degenerate_sample) = true /\
  (exists bs,
     annotations_well_formed blank_rasterize true 6 4
       (List.filter not_crowd (raw_annotations degenerate_sample)) bs /\
     Forall (fun b => keep_row (xyxy_clamped 6 4 b) = false) bs) /\
  exists t,
    ConvertCocoPolysToMask_call blank_rasterize {| return_masks := true |}
      image_6x4 degenerate_sample = Ok (image_6x4, t) /\
    shape (target_boxes t) = [0; 4] /\
    len (target_labels t) = 0 /\
    len (target_area t) = 0 /\
    len (target_iscrowd t) = 0 /\
    (exists m, target_masks t = Some m /\ shape m = [0; 4; 6]).
Proof.
  assert (Hwf : exists bs,
     annotations_well_formed blank_rasterize true 6 4
       (List.filter not_crowd (raw_annotations degenerate_sample)) bs /\
     Forall (fun b => keep_row (xyxy_clamped 6 4 b) = false) bs).
  { exists [(2, 1, 3, 0)%Q]. split; [|repeat constructor].
    split; [reflexivity|]. split; [repeat constructor|].
    split; [exists [5%Z]; split; reflexivity|].
    split; [exists [PyFloat 2]; split; reflexivity|]. split.
    - intros _. exists [Polygons []]. split; [reflexivity|].
      repeat constructor. eexists. split; [reflexivity|]. left. reflexivity.
    - right. exists 2, [[2; 1; 2; 3; 1; 0]%Q]. split; [reflexivity|].
      split; repeat constructor. }
  split; [reflexivity|]. split; [exact Hwf|].
  destruct (no_surviving_object_target blank_rasterize
              {| return_masks := true |} image_6x4 degenerate_sample
              eq_refl (or_intror Hwf))
    as (t & Hcall & Hb & Hl & Ha & Hi & Hm & _).
  exists t. repeat split; try assumption. exact (Hm eq_refl).
Defined.

(* ===================================================================== *)
(** ** Malformed boxes *)

Lemma tensor_int64_Ok (l : list Z) (t : tensor Z) :
  tensor_int64 l = Ok t -> t = tensor_1d l.
Proof.
  unfold tensor_int64. destruct (forallb fits_int64 l); [|discriminate].
  intros H. injection H as <-. reflexivity.
Qed.

(** When lines 85-90 succeed on n > 0 annotations, all [bbox] entries
    have one length k, 4 divides n*k, and the tensor has n*k/4 rows. *)
Lemma convert_boxes_Ok (w h : nat) (anno : list RawAnnotation)
      (boxes0 : tensor Q) :
  anno <> [] ->
  convert_boxes w h anno = Ok boxes0 ->
  exists k bl,
    List.map obj_bbox anno = List.map Some bl /\
    Forall (fun r => length r = k) bl /\
    (length anno * k) mod 4 = 0 /\
    len boxes0 = (length anno * k) / 4.
Proof.
  intros Hne H. unfold convert_boxes in H. inv_bind H.
  injection H as <-.
  match goal with
  | Hr : rmap _ _ = Ok ?l |- _ =>
      pose proof (rmap_length _ _ _ Hr) as Hlen;
      apply (rmap_getitem_inv "bbox" obj_bbox anno) in Hr;
      destruct l as [|r0 bl];
      [destruct anno; [congruence | discriminate Hlen]|]
  end.
  match goal with
  | Ht : as_tensor_float32 _ = Ok _ |- _ =>
      apply as_tensor_float32_Ok in Ht as [-> Hall]
  end.
  match goal with
  | Hv : reshape_infer _ _ _ = Ok _ |- _ =>
      unfold reshape_infer in Hv;
      cbn [app numel fold_right shape data Nat.eqb] in Hv;
      rewrite !Nat.mul_1_r in Hv;
      destruct (Nat.eqb_spec ((S (length bl) * length r0) mod 4) 0) as [Hm|];
      [injection Hv as <- | discriminate Hv]
  end.
  exists (length r0), (r0 :: bl). split; [assumption|]. split; [exact Hall|].
  rewrite <- Hlen. cbn [length]. split; [exact Hm | reflexivity].
Qed.

(** The part of a successful [__call__] that ties [labels] to the
    keep-mask. *)
Lemma call_inv_labels
  (rasterize : Segmentation -> nat -> nat -> result (tensor Z))
  (self : ConvertCocoPolysToMask) (image image' : Image)
  (target : RawTarget) (t : Target) :
  ConvertCocoPolysToMask_call rasterize self image target = Ok (image', t) ->
  let anno := List.filter not_crowd (raw_annotations target) in
  exists boxes0 cs,
    convert_boxes (fst (image_size image)) (snd (image_size image)) anno
    = Ok boxes0 /\
    List.map obj_category_id anno = List.map Some cs /\
    index_mask (tensor_1d cs) (keep_mask boxes0) = Ok (target_labels t).
Proof.
  unfold ConvertCocoPolysToMask_call.
  destruct (image_size image) as [w h]. simpl fst; simpl snd.
  intros H. inv_bind H. injection H as _ <-. cbn.
  match goal with
  | Hb : convert_boxes _ _ _ = Ok ?b,
    Hc : rmap _ _ = Ok ?cs,
    Ht : tensor_int64 ?cs = Ok ?c,
    Hi : index_mask ?c (keep_mask ?b) = Ok _ |- _ =>
      exists b, cs; split; [first [exact Hb | reflexivity]|]; split;
      [exact (rmap_getitem_inv "category_id" obj_category_id _ _ Hc)|];
      apply tensor_int64_Ok in Ht; subst c; exact Hi
  end.
Qed.

(** A non-crowd annotation whose [bbox] has not exactly four components
    makes [__call__] raise. *)
Lemma call_malformed_bbox
  (rasterize : Segmentation -> nat -> nat -> result (tensor Z))
  (self : ConvertCocoPolysToMask) (image : Image) (target : RawTarget)
  (obj : RawAnnotation) (l : list Q) :
  In obj (List.filter not_crowd (raw_annotations target)) ->
  obj_bbox obj = Some l ->
  length l <> 4 ->
  exists e, ConvertCocoPolysToMask_call rasterize self image target = Raise e.
Proof.
  intros Hin Hl Hbad.
  destruct (ConvertCocoPolysToMask_call rasterize self image target)
    as [[image' t]|e] eqn:Hcall; [exfalso | eauto].
  destruct (call_inv_labels _ _ _ _ _ _ Hcall) as (boxes0 & cs & Hb & Hc & Hi).
  set (anno := List.filter not_crowd (raw_annotations target)) in *.
  assert (Hne : anno <> []) by (intros E; rewrite E in Hin; exact Hin).
  destruct (convert_boxes_Ok _ _ anno boxes0 Hne Hb)
    as (k & bl & Hbl & Hall & Hmod & Hlen).
  apply index_mask_Ok in Hi as [Hkl _].
  rewrite keep_mask_length in Hkl. cbn [tensor_1d len shape hd] in Hkl.
  rewrite (map_Some_length _ _ _ Hc) in Hkl.
  assert (Hn : length anno <> 0) by (destruct anno; [congruence | discriminate]).
  assert (Hk : k = 4).
  { rewrite Hlen in Hkl.
    pose proof (Nat.div_mod_eq (length anno * k) 4) as Hd.
    rewrite Hmod, Hkl in Hd. nia. }
  (* the offending bbox is one of the rows *)
  assert (Hl4 : In (Some l) (List.map Some bl)).
  { rewrite <- Hbl, <- Hl. apply in_map, Hin. }
  apply in_map_iff in Hl4 as (l' & [= ->] & Hin').
  rewrite Forall_forall in Hall.
  apply Hbad. rewrite (Hall l), Hk; [reflexivity|].
  apply list_elem_of_In, Hin'.
Qed.

(** C8 (as the code has it). A [bbox] without exactly four components on
    an annotation that passes the crowd filter makes [__call__] raise,
    and with it the sample fetch [__getitem__]; no target is produced.
    (Crowd annotations are dropped before their [bbox] is read.) *)
Theorem malformed_bbox_raises
  (rasterize : Segmentation -> nat -> nat -> result (tensor Z))
  (TvCocoDetection_getitem :
     TvCocoDetection -> Z -> result (Image * list RawAnnotation))
  (apply_transforms : Transform -> Image * Target -> result (Image * Target))
  (self : CocoDetection) (idx : Z) (img : Image)
  (raw : list RawAnnotation) (obj : RawAnnotation) (l : list Q) :
  TvCocoDetection_getitem (tv_base self) idx = Ok (img, raw) ->
  In obj (List.filter not_crowd raw) ->
  obj_bbox obj = Some l ->
  length l <> 4 ->
  (forall image_id, exists e,
      ConvertCocoPolysToMask_call rasterize (prepare self) img
        {| raw_image_id := image_id; raw_annotations := raw |} = Raise e) /\
  (exists e,
      CocoDetection_getitem rasterize TvCocoDetection_getitem apply_transforms
        self idx = Raise e).
Proof.
  intros Htv Hin Hl Hbad.
  assert (Hcall : forall image_id, exists e,
             ConvertCocoPolysToMask_call rasterize (prepare self) img
               {| raw_image_id := image_id; raw_annotations := raw |} = Raise e).
  { intros image_id. eapply call_malformed_bbox; eauto. }
  split; [exact Hcall|].
  unfold CocoDetection_getitem, mbind, result_bind. rewrite Htv. cbn [rbind].
  destruct (list_getitem (ids (tv_base self)) idx) as [image_id|e];
    cbn [rbind]; [|eauto].
  destruct (Hcall image_id) as [e ->]. cbn [rbind]. eauto.
Qed.

Lemma malformed_bbox_raises_witness :
  let fetch := fun (_ : TvCocoDetection) (_ : Z) =>
                 Ok (image_640x480, [two_number_bbox]) in
  let apply := fun (_ : Transform) (x : Image * Target) => Ok x in
  In two_number_bbox (List.filter not_crowd [two_number_bbox]) /\
  length [100; 100]%Q <> 4 /\
  exists e,
    CocoDetection_getitem blank_rasterize fetch apply one_image_view 0 = Raise e.
Proof.
  intros fetch apply.
  assert (Hin : In two_number_bbox (List.filter not_crowd [two_number_bbox]))
    by (left; reflexivity).
  assert (Hlen : length [100; 100]%Q <> 4) by discriminate.
  split; [exact Hin|]. split; [exact Hlen|].
  exact (proj2 (malformed_bbox_raises blank_rasterize fetch apply
                  one_image_view 0 image_640x480 [two_number_bbox]
                  two_number_bbox [100; 100]%Q eq_refl Hin eq_refl Hlen)).
Defined.

(** C8 as stated fails on crowd annotations: the only annotation has a
    two-number [bbox] and [iscrowd = 1]; [__call__] returns a target. *)
Lemma malformed_crowd_bbox_counterexample :
  let target :=
    {| raw_image_id := 7;
       raw_annotations := [mk_obj [100; 100]%Q 3 0 (Some 1%Z)] |} in
  (exists obj l, In obj (raw_annotations target) /\
                 obj_bbox obj = Some l /\ length l <> 4) /\
  exists t,
    ConvertCocoPolysToMask_call blank_rasterize {| return_masks := false |}
      image_640x480 target = Ok (image_640x480, t).
Proof.
  intros target. split.
  - exists (mk_obj [100; 100]%Q 3 0 (Some 1%Z)), [100; 100]%Q.
    split; [left; reflexivity|]. split; [reflexivity | discriminate].
  - eexists. vm_compute. reflexivity.
Qed.

(* ===================================================================== *)
(** ** Split pipelines *)

(** C5 (as the code has it). For 'extra' the pipeline is flip, 600x600
    resize, normalize when [fix_size] is set, and normalize alone
    otherwise: the flip is present exactly when [fix_size] is set. *)
Theorem extra_pipeline (fix_size : bool) :
  exists p,
    make_coco_transforms "extra" fix_size = Ok p /\
    steps p = (if fix_size
               then [RandomHorizontalFlip;
                     RandomResize [SizePair 600 600] None;
                     normalize]
               else [normalize]) /\
    has_flip p = fix_size /\
    p = (if fix_size then spec_extra_pipeline true else Compose [normalize]).
Proof.
  destruct fix_size; eexists; (split; [reflexivity|]); repeat split.
Qed.

(** C5 as stated fails: without [fix_size] the 'extra' pipeline is
    normalize alone and holds no flip. *)
Lemma extra_pipeline_flip_counterexample :
  exists p,
    make_coco_transforms "extra" false = Ok p /\
    p <> spec_extra_pipeline false /\
    has_flip p = false /\
    has_flip (spec_extra_pipeline false) = true.
Proof.
  eexists. split; [reflexivity|]. split; [discriminate|]. split; reflexivity.
Qed.

(** C9. A split name other than 'train', 'extra' and 'val' makes
    [make_coco_transforms] raise [ValueError], and [build] raise before a
    dataset exists (already at the path lookup); no pipeline is
    substituted. *)
Theorem unknown_split_raises
  (TvCocoDetection_init :
     string -> string -> bool -> Z -> Z ->
     option (list Z) -> option (list Z) -> result TvCocoDetection)
  (get_local_rank get_local_size : Z)
  (image_set : string) (fix_size : bool) (args : Args)
  (img_ids class_ids : option (list Z)) (pseudo : bool) :
  image_set <> "train" -> image_set <> "extra" -> image_set <> "val" ->
  make_coco_transforms image_set fix_size
  = Raise (ValueError ("unknown " ++ image_set)) /\
  build TvCocoDetection_init get_local_rank get_local_size
        image_set args img_ids class_ids pseudo
  = Raise (KeyError image_set).
Proof.
  intros Ht He Hv. split.
  - unfold make_coco_transforms.
    destruct (String.eqb_spec image_set "train"); [contradiction|].
    destruct (String.eqb_spec image_set "extra"); [contradiction|].
    destruct (String.eqb_spec image_set "val"); [contradiction|].
    reflexivity.
  - unfold build, get_paths.
    rewrite lookup_insert_ne by congruence.
    rewrite lookup_insert_ne by congruence.
    rewrite lookup_empty. reflexivity.
Qed.

Lemma unknown_split_raises_witness :
  "test" <> "train" /\ "test" <> "extra" /\ "test" <> "val" /\
  make_coco_transforms "test" true = Raise (ValueError "unknown test") /\
  build empty_store_init 0 1 "test" sample_args None (Some [5%Z]) false
  = Raise (KeyError "test").
Proof.
  assert (H1 : "test" <> "train") by discriminate.
  assert (H2 : "test" <> "extra") by discriminate.
  assert (H3 : "test" <> "val") by discriminate.
  repeat (split; [assumption|]).
  exact (unknown_split_raises empty_store_init 0 1 "test" true sample_args
           None (Some [5%Z]) false H1 H2 H3).
Defined.

(* ===================================================================== *)
(** ** Category catalogue of a dataset view *)

Lemma restrict_cats_fold_lookup (store : gmap Z Category)
      (class_ids : list Z) (acc : gmap Z Category) (k : Z) :
  fold_left (fun cats class_id =>
               match store !! class_id with
               | Some c => <[class_id := c]> cats
               | None => cats
               end) class_ids acc !! k
  = match store !! k with
    | Some c => if bool_decide (k ∈ class_ids) then Some c else acc !! k
    | None => acc !! k
    end.
Proof.
  revert acc. induction class_ids as [|a l IH]; intros acc; cbn [fold_left].
  - destruct (store !! k); [rewrite bool_decide_eq_false_2|]; try reflexivity.
    apply not_elem_of_nil.
  - rewrite IH. destruct (decide (k = a)) as [->|Hne].
    + destruct (store !! a) as [c|] eqn:Ea; [|reflexivity].
      rewrite (bool_decide_eq_true_2 (a ∈ a :: l))
        by (apply elem_of_cons; left; reflexivity).
      destruct (bool_decide (a ∈ l)); [reflexivity | apply lookup_insert_eq].
    + assert (Hacc : (match store !! a with
                      | Some c => <[a := c]> acc
                      | None => acc
                      end) !! k = acc !! k).
      { destruct (store !! a); [apply lookup_insert_ne; congruence | reflexivity]. }
      rewrite Hacc. destruct (store !! k) as [c|]; [|reflexivity].
      destruct (decide (k ∈ l)) as [Hin|Hout].
      * rewrite !bool_decide_eq_true_2;
          [reflexivity | apply elem_of_cons; right; exact Hin | exact Hin].
      * rewrite !bool_decide_eq_false_2; [reflexivity | | exact Hout].
        intros [?|?]%elem_of_cons; contradiction.
Qed.

(** Lines 33-38: an id is in the new catalogue exactly when it is
    requested and in the store, with the store's metadata. *)
Lemma restrict_cats_lookup (store : gmap Z Category) (class_ids : list Z)
      (k : Z) :
  restrict_cats store class_ids !! k
  = if bool_decide (k ∈ class_ids) then store !! k else None.
Proof.
  unfold restrict_cats. rewrite restrict_cats_fold_lookup, lookup_empty.
  destruct (store !! k), (bool_decide (k ∈ class_ids)); reflexivity.
Qed.

Lemma restrict_cats_dom (store : gmap Z Category) (class_ids : list Z) :
  dom (restrict_cats store class_ids)
  = (list_to_set class_ids : gset Z) ∩ dom store.
Proof.
  apply set_eq. intros k.
  rewrite elem_of_intersection, !elem_of_dom, elem_of_list_to_set,
    restrict_cats_lookup.
  destruct (decide (k ∈ class_ids)) as [Hin|Hout].
  - rewrite bool_decide_eq_true_2 by exact Hin. tauto.
  - rewrite bool_decide_eq_false_2 by exact Hout. split.
    + intros [? ?]. discriminate.
    + tauto.
Qed.

Section Construction.

Variable TvCocoDetection_init :
  string -> string -> bool -> Z -> Z ->
  option (list Z) -> option (list Z) -> result TvCocoDetection.

Variables (img_folder ann_file : string) (transforms : option Transform)
          (masks_on cache : bool) (local_rank local_size : Z)
          (img_ids : option (list Z)).

(** C10. With [class_ids] given (and the parent constructor
    succeeding), construction succeeds and the exposed catalogue holds
    exactly the requested ids that the store's catalogue has, each with
    the store's entry; a requested id the store lacks is skipped:
    [class_ids = {5, 999}] on a store with 5 and without 999 leaves
    the catalogue [{5: ...}]. *)
Theorem class_ids_restrict_catalog (class_ids : list Z)
        (tv : TvCocoDetection) :
  TvCocoDetection_init img_folder ann_file cache local_rank local_size
    img_ids (Some class_ids) = Ok tv ->
  exists ds,
    CocoDetection_init TvCocoDetection_init img_folder ann_file transforms
      masks_on cache local_rank local_size img_ids (Some class_ids) = Ok ds /\
    dom (cats (coco (tv_base ds)))
    = (list_to_set class_ids : gset Z) ∩ dom (cats (coco tv)) /\
    (forall k : Z,
        cats (coco (tv_base ds)) !! k
        = if bool_decide (k ∈ class_ids) then cats (coco tv) !! k else None) /\
    (forall c5 : Category,
        class_ids = [5; 999]%Z ->
        cats (coco tv) !! 5%Z = Some c5 ->
        cats (coco tv) !! 999%Z = None ->
        cats (coco (tv_base ds)) = {[ 5%Z := c5 ]}).
Proof.
  intros Htv. unfold CocoDetection_init, mbind, result_bind.
  rewrite Htv. cbn [rbind iter]. eexists. split; [reflexivity|].
  cbn [tv_base coco cats]. split; [apply restrict_cats_dom|].
  split; [apply restrict_cats_lookup|].
  intros c5 -> H5 H999. apply map_eq. intros k.
  rewrite restrict_cats_lookup.
  destruct (decide (k = 5%Z)) as [->|H5'].
  - rewrite lookup_singleton_eq, H5. reflexivity.
  - rewrite lookup_singleton_ne by congruence.
    destruct (bool_decide_reflect (k ∈ [5; 999]%Z)) as [Hin|]; [|reflexivity].
    apply elem_of_cons in Hin as [?|Hin]; [contradiction|].
    apply elem_of_cons in Hin as [->|Hin]; [exact H999|].
    apply elem_of_nil in Hin. contradiction.
Qed.

(** C6 (the code departs from it). With [class_ids] left at its default
    [None], construction never succeeds: when the parent constructor
    returns, the loop at line 34 iterates over [None] and raises
    [TypeError]; so does [build] with its own default. *)
Theorem class_ids_none_raises :
  CocoDetection_init TvCocoDetection_init img_folder ann_file transforms
    masks_on cache local_rank local_size img_ids None
  = match TvCocoDetection_init img_folder ann_file cache local_rank
            local_size img_ids None with
    | Ok _ => Raise (TypeError "'NoneType' object is not iterable")
    | Raise e => Raise e
    end /\
  (exists e,
      CocoDetection_init TvCocoDetection_init img_folder ann_file transforms
        masks_on cache local_rank local_size img_ids None = Raise e) /\
  (forall (args : Args) (pseudo : bool), exists e,
      build TvCocoDetection_init local_rank local_size "train" args
        img_ids None pseudo = Raise e).
Proof.
  assert (H : forall f a t m c,
             CocoDetection_init TvCocoDetection_init f a t m c
               local_rank local_size img_ids None
             = match TvCocoDetection_init f a c local_rank
                       local_size img_ids None with
               | Ok _ => Raise (TypeError "'NoneType' object is not iterable")
               | Raise e => Raise e
               end).
  { intros. unfold CocoDetection_init, mbind, result_bind.
    destruct (TvCocoDetection_init _ _ _ _ _ _ _); reflexivity. }
  split; [apply H|]. split.
  - rewrite H. destruct (TvCocoDetection_init _ _ _ _ _ _ _); eauto.
  - intros args pseudo. unfold build, get_paths, mbind, result_bind.
    rewrite lookup_insert_eq. cbn [getitem rbind].
    cbn [make_coco_transforms String.eqb Ascii.eqb Bool.eqb rbind].
    rewrite H. destruct (TvCocoDetection_init _ _ _ _ _ _ _); eauto.
Qed.

End Construction.

Lemma class_ids_restrict_catalog_witness :
  exists ds,
    CocoDetection_init store_5_7_init "images" "ann.json" None false false
      0 1 None (Some [5; 999]%Z) = Ok ds /\
    cats (coco (tv_base ds)) = {[ 5%Z := cat_5 ]}.
Proof.
  destruct (class_ids_restrict_catalog store_5_7_init "images" "ann.json"
              None false false 0 1 None [5; 999]%Z _ eq_refl)
    as (ds & Hds & _ & _ & Hex).
  exists ds. split; [exact Hds|].
  apply (Hex cat_5); reflexivity.
Defined.

(* ===================================================================== *)
(** ** Further properties of the normaliser *)

Lemma Qltb_lt (a b : Q) : Qltb a b = true <-> (a < b)%Q.
Proof.
  unfold Qltb. rewrite negb_true_iff. split.
  - intros H. apply Qnot_le_lt. intros Hle.
    apply Qle_bool_iff in Hle. congruence.
  - intros H. destruct (Qle_bool b a) eqn:E; [|reflexivity].
    apply Qle_bool_iff in E. exfalso. apply (Qlt_not_le _ _ H E).
Qed.

Lemma rows_of_four (bl : list (list Q)) :
  Forall (fun r => length r = 4) bl ->
  exists bs, bl = List.map bbox_list bs.
Proof.
  induction 1 as [|r bl Hr _ [bs ->]]; [exists []; reflexivity|].
  destruct r as [|x [|y [|bw [|bh [|]]]]]; try discriminate Hr.
  exists ((x, y, bw, bh) :: bs). reflexivity.
Qed.

(** A successful [__call__] read a four-number [bbox] on every non-crowd
    annotation. *)
Lemma call_ok_bboxes
  (rasterize : Segmentation -> nat -> nat -> result (tensor Z))
  (self : ConvertCocoPolysToMask) (image image' : Image)
  (target : RawTarget) (t : Target) :
  ConvertCocoPolysToMask_call rasterize self image target = Ok (image', t) ->
  exists bs,
    List.map obj_bbox (List.filter not_crowd (raw_annotations target))
    = List.map (fun b => Some (bbox_list b)) bs.
Proof.
  intros Hcall.
  set (anno := List.filter not_crowd (raw_annotations target)).
  destruct anno as [|obj0 anno'] eqn:Ea; [exists []; reflexivity|].
  rewrite <- Ea.
  destruct (call_inv _ _ _ _ _ _ Hcall) as (boxes0 & _ & _ & Hb & _).
  fold anno in Hb.
  assert (Hne : anno <> []) by (rewrite Ea; discriminate).
  destruct (convert_boxes_Ok _ _ anno boxes0 Hne Hb) as (k & bl & Hbl & _ & _ & _).
  assert (H4 : Forall (fun r => length r = 4) bl).
  { apply Forall_forall. intros l Hl.
    destruct (Nat.eq_dec (length l) 4) as [|Hbad]; [assumption|exfalso].
    apply list_elem_of_In in Hl.
    assert (Hin : In (Some l) (List.map obj_bbox anno))
      by (rewrite Hbl; apply in_map, Hl).
    apply in_map_iff in Hin as (obj & Hobj & Hin).
    destruct (call_malformed_bbox rasterize self image target obj l Hin Hobj Hbad)
      as [e He].
    congruence. }
  destruct (rows_of_four bl H4) as [bs ->].
  exists bs. rewrite Hbl, map_map. reflexivity.
Qed.

(** The target's boxes, whenever [__call__] returns. *)
Lemma call_ok_boxes
  (rasterize : Segmentation -> nat -> nat -> result (tensor Z))
  (self : ConvertCocoPolysToMask) (image image' : Image)
  (target : RawTarget) (t : Target) :
  ConvertCocoPolysToMask_call rasterize self image target = Ok (image', t) ->
  exists bs,
    let w := fst (image_size image) in
    let h := snd (image_size image) in
    let kept := List.filter keep_row (List.map (xyxy_clamped w h) bs) in
    List.map obj_bbox (List.filter not_crowd (raw_annotations target))
    = List.map (fun b => Some (bbox_list b)) bs /\
    target_boxes t = Tensor [length kept; 4] (concat kept) /\
    rows (target_boxes t) = kept.
Proof.
  intros Hcall. destruct (call_ok_bboxes _ _ _ _ _ _ Hcall) as [bs Hbs].
  exists bs. intros w h kept. split; [exact Hbs|].
  destruct (call_inv _ _ _ _ _ _ Hcall) as (boxes0 & _ & _ & Hb & _ & _ & Hi & _).
  fold w h in Hb.
  pose proof (convert_boxes_spec w h _ bs boxes0 Hbs Hb) as Hspec.
  rewrite Hspec in Hb. clear Hspec.
  injection Hb as <-.
  rewrite <- (length_map (xyxy_clamped w h) bs) in Hi.
  assert (H4 : Forall (fun r : list Q => length r = 4)
                      (List.map (xyxy_clamped w h) bs))
    by (apply Forall_length_map; intros [[[? ?] ?] ?]; reflexivity).
  rewrite index_mask_keep_uniform in Hi by exact H4.
  injection Hi as <-. split; [reflexivity|].
  apply rows_uniform. apply Forall_forall. intros r Hr.
  apply list_elem_of_In, filter_In in Hr as [Hr _].
  rewrite Forall_forall in H4. apply H4, list_elem_of_In, Hr.
Qed.

(** X1. Every box of a returned target is a proper box of the image:
    0 <= x_min < x_max <= width and 0 <= y_min < y_max <= height. *)
Theorem surviving_boxes_proper
  (rasterize : Segmentation -> nat -> nat -> result (tensor Z))
  (self : ConvertCocoPolysToMask) (image image' : Image)
  (target : RawTarget) (t : Target) :
  ConvertCocoPolysToMask_call rasterize self image target = Ok (image', t) ->
  Forall (proper_box (fst (image_size image)) (snd (image_size image)))
         (rows (target_boxes t)).
Proof.
  intros Hcall.
  destruct (call_ok_boxes _ _ _ _ _ _ Hcall) as (bs & _ & _ & ->).
  apply Forall_forall. intros r Hr.
  apply list_elem_of_In, filter_In in Hr as [Hr Hkeep].
  apply in_map_iff in Hr as ([[[x y] bw] bh] & <- & _).
  unfold keep_row in Hkeep. cbn [xyxy_clamped nth] in Hkeep.
  apply andb_true_iff in Hkeep as [Hy Hx].
  apply Qltb_lt in Hy, Hx.
  set (w := fst (image_size image)) in *.
  set (h := snd (image_size image)) in *.
  destruct (clamp_range 0 (QofNat w) x (QofNat_nonneg w)) as [Hx0 _].
  destruct (clamp_range 0 (QofNat w) (x + bw) (QofNat_nonneg w)) as [_ Hx1].
  destruct (clamp_range 0 (QofNat h) y (QofNat_nonneg h)) as [Hy0 _].
  destruct (clamp_range 0 (QofNat h) (y + bh) (QofNat_nonneg h)) as [_ Hy1].
  cbn [xyxy_clamped]. do 4 eexists. split; [reflexivity|]. tauto.
Qed.

Lemma surviving_boxes_proper_witness :
  exists t,
    ConvertCocoPolysToMask_call blank_rasterize {| return_masks := true |}
      image_6x4 sample_6x4 = Ok (image_6x4, t) /\
    Forall (proper_box 6 4) (rows (target_boxes t)).
Proof.
  destruct (ConvertCocoPolysToMask_call blank_rasterize {| return_masks := true |}
              image_6x4 sample_6x4) as [[image' t]|e] eqn:E;
    [| vm_compute in E; discriminate E].
  pose proof (call_returns_image _ _ _ _ _ _ E) as ->.
  exists t. split; [reflexivity|].
  exact (surviving_boxes_proper blank_rasterize {| return_masks := true |}
           image_6x4 image_6x4 sample_6x4 t E).
Defined.

Lemma tensor_int64_fits (l : list Z) (t : tensor Z) :
  tensor_int64 l = Ok t -> forallb fits_int64 l = true.
Proof.
  unfold tensor_int64. destruct (forallb fits_int64 l); [reflexivity|discriminate].
Qed.

(** Every stage of a successful [__call__]. *)
Lemma call_inv_full
  (rasterize : Segmentation -> nat -> nat -> result (tensor Z))
  (self : ConvertCocoPolysToMask) (image image' : Image)
  (target : RawTarget) (t : Target) :
  ConvertCocoPolysToMask_call rasterize self image target = Ok (image', t) ->
  let w := fst (image_size image) in
  let h := snd (image_size image) in
  let anno := List.filter not_crowd (raw_annotations target) in
  exists boxes0 cs masks0 kp0 areas,
    let keep := keep_mask boxes0 in
    fits_int64 (raw_image_id target) = true /\
    convert_boxes w h anno = Ok boxes0 /\
    List.map obj_category_id anno = List.map Some cs /\
    forallb fits_int64 cs = true /\
    (if return_masks self
     then exists segs m,
         List.map obj_segmentation anno = List.map Some segs /\
         convert_coco_poly_to_mask rasterize segs h w = Ok m /\
         masks0 = Some m
     else masks0 = None) /\
    convert_keypoints anno = Ok kp0 /\
    List.map obj_area anno = List.map Some areas /\
    index_mask boxes0 keep = Ok (target_boxes t) /\
    index_mask (tensor_1d cs) keep = Ok (target_labels t) /\
    index_mask_opt masks0 keep = Ok (target_masks t) /\
    index_mask_opt kp0 keep = Ok (target_keypoints t) /\
    index_mask (tensor_1d (List.map py_value areas)) keep
    = Ok (target_area t) /\
    index_mask (tensor_1d (List.map (fun obj => match obj_iscrowd obj with
                                                | Some c => c
                                                | None => 0%Z
                                                end) anno)) keep
    = Ok (target_iscrowd t) /\
    target_image_id t = tensor_1d [raw_image_id target] /\
    target_orig_size t = tensor_1d [Z.of_nat h; Z.of_nat w] /\
    target_size t = tensor_1d [Z.of_nat h; Z.of_nat w].
Proof.
  unfold ConvertCocoPolysToMask_call.
  destruct (image_size image) as [w h]. simpl fst; simpl snd.
  intros H. inv_bind H. injection H as _ <-. cbn.
  match goal with
  | Hid : tensor_int64 [_] = Ok ?i,
    Hb : convert_boxes _ _ _ = Ok ?b,
    Hc : rmap (fun obj => getitem "category_id" _) _ = Ok ?cs,
    Hct : tensor_int64 ?cs = Ok ?c,
    Hm : (if return_masks self then _ else _) = Ok ?m,
    Hk : convert_keypoints _ = Ok ?k,
    Ha : rmap (fun obj => getitem "area" _) _ = Ok ?ar,
    Hat : torch_tensor ?ar = Ok ?at_,
    Hit : tensor_int64 (List.map _ _) = Ok ?ic |- _ =>
      pose proof (tensor_int64_fits _ _ Hid) as Hfid;
      pose proof (tensor_int64_fits _ _ Hct) as Hfc;
      apply tensor_int64_Ok in Hid, Hct, Hit; subst i c ic;
      apply torch_tensor_Ok in Hat; subst at_;
      apply (rmap_getitem_inv "category_id" obj_category_id) in Hc;
      apply (rmap_getitem_inv "area" obj_area) in Ha;
      exists b, cs, m, k, ar
  end.
  cbn [forallb] in Hfid. rewrite andb_true_r in Hfid.
  repeat (split; [first [assumption | reflexivity] |]).
  split.
  { destruct (return_masks self); [|congruence].
    match goal with
    | Hm : rbind _ _ = Ok _ |- _ =>
        inv_bind Hm; injection Hm as <-
    end.
    match goal with
    | Hs : rmap _ _ = Ok ?segs |- _ =>
        apply (rmap_getitem_inv "segmentation" obj_segmentation) in Hs;
        exists segs; eexists; eauto
    end. }
  repeat (split; [first [assumption | reflexivity] |]).
  reflexivity.
Qed.

Lemma select_map {A B} (f : A -> B) (keep : list bool) (l : list A) :
  select keep (List.map f l) = List.map f (select keep l).
Proof.
  revert l. induction keep as [|b keep IH]; intros [|x l]; simpl; try reflexivity.
  destruct b; simpl; rewrite IH; reflexivity.
Qed.

Lemma chunks_singletons {A} (l : list A) :
  chunks (length l) 1 l = List.map (fun x => [x]) l.
Proof.
  induction l as [|x l IH]; [reflexivity|]. simpl. rewrite drop_0.
  f_equal. exact IH.
Qed.

Lemma concat_singletons {A} (l : list A) :
  concat (List.map (fun x => [x]) l) = l.
Proof. induction l as [|x l IH]; simpl; [|rewrite IH]; reflexivity. Qed.

(** [t[keep]] on a one-dimensional tensor keeps the flagged entries. *)
Lemma index_mask_1d {A} (l : list A) (keep : list bool) (t' : tensor A) :
  index_mask (tensor_1d l) keep = Ok t' ->
  length keep = length l /\ t' = tensor_1d (select keep l).
Proof.
  intros H. pose proof (index_mask_Ok _ _ _ H) as [Hlen _].
  split; [exact Hlen|].
  unfold index_mask in H. cbn [tensor_1d shape] in H.
  rewrite Hlen, Nat.eqb_refl in H. injection H as <-.
  unfold rows, len, tensor_1d. cbn [shape hd tl numel fold_right data].
  rewrite chunks_singletons, select_map, concat_singletons, length_map.
  reflexivity.
Qed.

Lemma select_omap {A B} (g : A -> option B) (keep : list bool)
      (l : list A) (xs : list B) :
  List.map g l = List.map Some xs ->
  omap g (select keep l) = select keep xs.
Proof.
  revert keep xs. induction l as [|a l IH]; intros keep [|x xs] H;
    try discriminate; destruct keep as [|b keep]; try reflexivity.
  simpl in H. injection H as Ha Hl. simpl.
  destruct b; simpl; [rewrite Ha; simpl; f_equal|]; apply IH, Hl.
Qed.

Lemma select_length_eq {A B} (keep : list bool) (l1 : list A) (l2 : list B) :
  length l1 = length l2 ->
  length (select keep l1) = length (select keep l2).
Proof.
  revert l1 l2. induction keep as [|b keep IH]; intros [|x l1] [|y l2] H;
    try discriminate; try reflexivity.
  injection H as H. simpl. destruct b; simpl; rewrite (IH l1 l2 H); reflexivity.
Qed.

Lemma filter_map_comm {A B} (f : A -> B) (p : B -> bool) (l : list A) :
  List.filter p (List.map f l) = List.map f (List.filter (fun a => p (f a)) l).
Proof.
  induction l as [|a l IH]; [reflexivity|]. simpl.
  destruct (p (f a)); simpl; rewrite IH; reflexivity.
Qed.

Lemma obj_box_rows (w h : nat) (anno : list RawAnnotation)
      (bs : list (Q * Q * Q * Q)) :
  List.map obj_bbox anno = List.map (fun b => Some (bbox_list b)) bs ->
  List.map (obj_box_row w h) anno = List.map (xyxy_clamped w h) bs.
Proof.
  revert bs. induction anno as [|obj anno IH]; intros [|b bs] H;
    try discriminate; [reflexivity|].
  simpl in H. injection H as Hb Hl. simpl. f_equal; [|apply IH, Hl].
  unfold obj_box_row. rewrite Hb. destruct b as [[[x y] bw] bh].
  cbn [bbox_list]. apply row_pipeline.
Qed.

(** X2. Whenever [__call__] returns, the target describes exactly the
    non-crowd annotations whose clamped box passes the keep-mask, in
    their original order and field by field: row i of [boxes], entry i of
    [labels] and entry i of [area] all come from the i-th such
    annotation. *)
Theorem target_fields_aligned
  (rasterize : Segmentation -> nat -> nat -> result (tensor Z))
  (self : ConvertCocoPolysToMask) (image image' : Image)
  (target : RawTarget) (t : Target) :
  ConvertCocoPolysToMask_call rasterize self image target = Ok (image', t) ->
  let w := fst (image_size image) in
  let h := snd (image_size image) in
  let kept := List.filter (survives w h)
                (List.filter not_crowd (raw_annotations target)) in
  rows (target_boxes t) = List.map (obj_box_row w h) kept /\
  data (target_labels t) = omap obj_category_id kept /\
  data (target_area t) = List.map py_value (omap obj_area kept) /\
  len (target_boxes t) = length kept /\
  length (data (target_labels t)) = length kept /\
  length (data (target_area t)) = length kept.
Proof.
  intros Hcall w h kept.
  destruct (call_ok_boxes _ _ _ _ _ _ Hcall) as (bs & Hbs & Hbox & Hrows).
  fold w h in Hbox, Hrows.
  destruct (call_inv_full _ _ _ _ _ _ Hcall)
    as (boxes0 & cs & masks0 & kp0 & areas & _ & Hb & Hc & _ & _ & _ & Ha
        & _ & Hil & _ & _ & Hia & _).
  fold w h in Hb.
  pose proof (convert_boxes_spec w h _ bs boxes0 Hbs Hb) as Hspec.
  rewrite Hspec in Hb. clear Hspec.
  injection Hb as <-.
  set (anno := List.filter not_crowd (raw_annotations target)) in *.
  pose proof (obj_box_rows w h anno bs Hbs) as Hobj.
  assert (Hkeep : keep_mask (Tensor [length bs; 4]
                               (concat (List.map (xyxy_clamped w h) bs)))
                  = List.map (survives w h) anno).
  { unfold keep_mask.
    rewrite <- (length_map (xyxy_clamped w h) bs) at 1.
    rewrite rows_uniform
      by (apply Forall_length_map; intros [[[? ?] ?] ?]; reflexivity).
    rewrite <- Hobj, map_map. reflexivity. }
  rewrite Hkeep in Hil, Hia.
  apply index_mask_1d in Hil as [_ Hl]. apply index_mask_1d in Hia as [_ Hal].
  assert (Hk : select (List.map (survives w h) anno) anno = kept)
    by apply select_map_filter.
  assert (Hr : rows (target_boxes t) = List.map (obj_box_row w h) kept).
  { rewrite Hrows, <- Hobj, filter_map_comm. reflexivity. }
  assert (Hlab : data (target_labels t) = omap obj_category_id kept).
  { rewrite Hl. cbn [tensor_1d data]. rewrite <- Hk. symmetry.
    apply select_omap, Hc. }
  assert (Har : data (target_area t) = List.map py_value (omap obj_area kept)).
  { rewrite Hal. cbn [tensor_1d data]. rewrite <- Hk, select_map. f_equal.
    symmetry. apply select_omap, Ha. }
  split; [exact Hr|]. split; [exact Hlab|]. split; [exact Har|].
  split.
  - rewrite <- rows_length, Hr, length_map. reflexivity.
  - rewrite Hlab, Har, length_map, <- Hk.
    rewrite (select_omap _ _ _ _ Hc), (select_omap _ _ _ _ Ha).
    split; apply select_length_eq; eapply map_Some_length; eassumption.
Qed.

Lemma target_fields_aligned_witness :
  exists t,
    ConvertCocoPolysToMask_call blank_rasterize {| return_masks := true |}
      image_6x4 sample_6x4 = Ok (image_6x4, t) /\
    rows (target_boxes t) = [[1; 1; 3; 3]%Q] /\
    data (target_labels t) = [3%Z] /\
    data (target_area t) = [2%Q].
Proof.
  destruct (ConvertCocoPolysToMask_call blank_rasterize {| return_masks := true |}
              image_6x4 sample_6x4) as [[image' t]|e] eqn:E;
    [| vm_compute in E; discriminate E].
  pose proof (call_returns_image _ _ _ _ _ _ E) as ->.
  exists t. split; [reflexivity|].
  destruct (target_fields_aligned blank_rasterize {| return_masks := true |}
              image_6x4 image_6x4 sample_6x4 t E) as (Hr & Hl & Ha & _).
  split; [exact Hr|]. split; [exact Hl | exact Ha].
Defined.

Lemma select_repeat {A} (z : A) (keep : list bool) (n : nat) :
  select keep (repeat z n) = repeat z (length (select keep (repeat z n))).
Proof.
  revert n. induction keep as [|b keep IH]; intros [|n]; simpl; try reflexivity.
  destruct b; simpl; rewrite <- IH; reflexivity.
Qed.

(** X3. In a returned target [iscrowd] is all zeros, one per surviving
    box: crowd annotations were removed and a missing [iscrowd] reads
    as 0. *)
Theorem target_iscrowd_zero
  (rasterize : Segmentation -> nat -> nat -> result (tensor Z))
  (self : ConvertCocoPolysToMask) (image image' : Image)
  (target : RawTarget) (t : Target) :
  ConvertCocoPolysToMask_call rasterize self image target = Ok (image', t) ->
  target_iscrowd t = tensor_1d (repeat 0%Z (len (target_boxes t))).
Proof.
  intros Hcall.
  destruct (call_inv_full _ _ _ _ _ _ Hcall)
    as (boxes0 & cs & masks0 & kp0 & areas & _ & _ & _ & _ & _ & _ & _
        & Hib & _ & _ & _ & _ & Hic & _).
  rewrite not_crowd_iscrowd_zero in Hic.
  apply index_mask_1d in Hic as [Hlen ->].
  rewrite select_repeat. do 2 f_equal.
  rewrite (index_mask_len _ _ _ Hib). apply select_length. exact Hlen.
Qed.

Lemma target_iscrowd_zero_witness :
  exists t,
    ConvertCocoPolysToMask_call blank_rasterize {| return_masks := true |}
      image_6x4 sample_6x4 = Ok (image_6x4, t) /\
    target_iscrowd t = tensor_1d [0%Z].
Proof.
  destruct (ConvertCocoPolysToMask_call blank_rasterize {| return_masks := true |}
              image_6x4 sample_6x4) as [[image' t]|e] eqn:E;
    [| vm_compute in E; discriminate E].
  pose proof (call_returns_image _ _ _ _ _ _ E) as ->.
  exists t. split; [reflexivity|].
  rewrite (target_iscrowd_zero blank_rasterize {| return_masks := true |}
             image_6x4 image_6x4 sample_6x4 t E).
  vm_compute in E. injection E as <-. reflexivity.
Defined.

(** X4. A returned target carries the original image id, and
    [orig_size] and [size] are both (height, width), the reverse of
    [image.size]; the image itself is handed back unchanged. *)
Theorem target_metadata
  (rasterize : Segmentation -> nat -> nat -> result (tensor Z))
  (self : ConvertCocoPolysToMask) (image image' : Image)
  (target : RawTarget) (t : Target) :
  ConvertCocoPolysToMask_call rasterize self image target = Ok (image', t) ->
  image' = image /\
  target_image_id t = tensor_1d [raw_image_id target] /\
  target_orig_size t = tensor_1d [Z.of_nat (snd (image_size image));
                                  Z.of_nat (fst (image_size image))] /\
  target_size t = target_orig_size t.
Proof.
  intros Hcall. split; [exact (call_returns_image _ _ _ _ _ _ Hcall)|].
  destruct (call_inv_full _ _ _ _ _ _ Hcall)
    as (boxes0 & cs & masks0 & kp0 & areas & _ & _ & _ & _ & _ & _ & _
        & _ & _ & _ & _ & _ & _ & Hid & Ho & Hs).
  rewrite Hid, Ho, Hs. repeat split.
Qed.

Lemma target_metadata_witness :
  exists t,
    ConvertCocoPolysToMask_call blank_rasterize {| return_masks := false |}
      image_640x480 {| raw_image_id := 139; raw_annotations := [] |}
    = Ok (image_640x480, t) /\
    target_image_id t = tensor_1d [139%Z] /\
    target_orig_size t = tensor_1d [480%Z; 640%Z] /\
    target_size t = tensor_1d [480%Z; 640%Z].
Proof.
  destruct (ConvertCocoPolysToMask_call blank_rasterize {| return_masks := false |}
              image_640x480 {| raw_image_id := 139; raw_annotations := [] |})
    as [[image' t]|e] eqn:E; [| vm_compute in E; discriminate E].
  destruct (target_metadata _ _ _ _ _ _ E) as (-> & Hid & Ho & Hs).
  exists t. split; [reflexivity|]. split; [exact Hid|].
  split; [exact Ho | rewrite Hs; exact Ho].
Defined.

Lemma map_Some_Forall {A B} (g : A -> option B) (l : list A) (xs : list B) :
  List.map g l = List.map Some xs -> Forall (fun a => is_Some (g a)) l.
Proof.
  revert xs. induction l as [|a l IH]; intros [|x xs] H; try discriminate;
    constructor.
  - simpl in H. injection H as -> _. eauto.
  - simpl in H. injection H as _ H. eapply IH, H.
Qed.

(** X5. [__call__] returns only if every non-crowd annotation has a
    four-number [bbox], a [category_id] that fits int64, an [area] and,
    in mask mode, a [segmentation]; and only if the image id fits
    int64. *)
Theorem call_ok_required_keys
  (rasterize : Segmentation -> nat -> nat -> result (tensor Z))
  (self : ConvertCocoPolysToMask) (image image' : Image)
  (target : RawTarget) (t : Target) :
  ConvertCocoPolysToMask_call rasterize self image target = Ok (image', t) ->
  fits_int64 (raw_image_id target) = true /\
  Forall (fun obj =>
            (exists x y bw bh, obj_bbox obj = Some [x; y; bw; bh]) /\
            (exists c, obj_category_id obj = Some c /\ fits_int64 c = true) /\
            is_Some (obj_area obj) /\
            (return_masks self = true -> is_Some (obj_segmentation obj)))
         (List.filter not_crowd (raw_annotations target)).
Proof.
  intros Hcall.
  destruct (call_ok_bboxes _ _ _ _ _ _ Hcall) as [bs Hbs].
  destruct (call_inv_full _ _ _ _ _ _ Hcall)
    as (boxes0 & cs & masks0 & kp0 & areas & Hid & _ & Hc & Hfit & Hm & _ & Ha & _).
  split; [exact Hid|].
  set (anno := List.filter not_crowd (raw_annotations target)) in *.
  apply Forall_forall. intros obj Hin. apply list_elem_of_In in Hin.
  split; [|split; [|split]].
  - assert (Hi : In (obj_bbox obj) (List.map obj_bbox anno)) by apply in_map, Hin.
    rewrite Hbs in Hi. apply in_map_iff in Hi as ([[[x y] bw] bh] & Hb & _).
    exists x, y, bw, bh. symmetry. exact Hb.
  - assert (Hi : In (obj_category_id obj) (List.map obj_category_id anno))
      by apply in_map, Hin.
    rewrite Hc in Hi. apply in_map_iff in Hi as (c & Hcc & Hcin).
    exists c. split; [symmetry; exact Hcc|].
    rewrite forallb_forall in Hfit. apply Hfit, Hcin.
  - pose proof (map_Some_Forall _ _ _ Ha) as HF. rewrite Forall_forall in HF.
    apply HF, list_elem_of_In, Hin.
  - intros Hrm. rewrite Hrm in Hm. destruct Hm as (segs & m & Hs & _).
    pose proof (map_Some_Forall _ _ _ Hs) as HF. rewrite Forall_forall in HF.
    apply HF, list_elem_of_In, Hin.
Qed.

Lemma call_ok_required_keys_witness :
  exists t,
    ConvertCocoPolysToMask_call blank_rasterize {| return_masks := true |}
      image_6x4 sample_6x4 = Ok (image_6x4, t) /\
    Forall (fun obj => is_Some (obj_segmentation obj))
           (List.filter not_crowd (raw_annotations sample_6x4)).
Proof.
  destruct (ConvertCocoPolysToMask_call blank_rasterize {| return_masks := true |}
              image_6x4 sample_6x4) as [[image' t]|e] eqn:E;
    [| vm_compute in E; discriminate E].
  pose proof (call_returns_image _ _ _ _ _ _ E) as ->.
  exists t. split; [reflexivity|].
  destruct (call_ok_required_keys blank_rasterize {| return_masks := true |}
              image_6x4 image_6x4 sample_6x4 t E) as [_ HF].
  eapply Forall_impl; [exact HF|].
  intros obj (_ & _ & _ & Hs). exact (Hs eq_refl).
Defined.

Lemma rmap_getitem_None {A B} (key : string) (g : A -> option B) (l : list A) :
  Exists (fun a => g a = None) l ->
  rmap (fun obj => getitem key (g obj)) l = Raise (KeyError key).
Proof.
  induction l as [|a l IH]; intros H; [inversion H|].
  simpl. destruct (g a) as [b|] eqn:Ea; [|reflexivity].
  inversion H as [? ? Hn | ? ? Hl]; subst; [congruence|].
  simpl. unfold mbind, result_bind. rewrite (IH Hl). reflexivity.
Qed.

(** X6. A non-crowd annotation without a [bbox] key makes [__call__]
    raise KeyError('bbox'), whatever else the annotations hold. *)
Theorem missing_bbox_key_error
  (rasterize : Segmentation -> nat -> nat -> result (tensor Z))
  (self : ConvertCocoPolysToMask) (image : Image) (target : RawTarget) :
  fits_int64 (raw_image_id target) = true ->
  Exists (fun obj => obj_bbox obj = None)
         (List.filter not_crowd (raw_annotations target)) ->
  ConvertCocoPolysToMask_call rasterize self image target
  = Raise (KeyError "bbox").
Proof.
  intros Hid Hex. unfold ConvertCocoPolysToMask_call.
  destruct (image_size image) as [w h]. unfold mbind, result_bind.
  assert (Hten : tensor_int64 [raw_image_id target]
                 = Ok (tensor_1d [raw_image_id target])).
  { unfold tensor_int64. cbn [forallb]. rewrite Hid. reflexivity. }
  rewrite Hten. cbn [rbind]. unfold convert_boxes, mbind, result_bind.
  rewrite (rmap_getitem_None "bbox" obj_bbox _ Hex). reflexivity.
Qed.

Lemma missing_bbox_key_error_witness :
  let target :=
    {| raw_image_id := 7;
       raw_annotations :=
         [mk_obj [1; 1; 2; 2]%Q 3 4 None;
          {| obj_bbox := None; obj_category_id := Some 5%Z;
             obj_segmentation := None; obj_area := Some (PyInt 1);
             obj_iscrowd := Some 0%Z; obj_keypoints := None |}] |} in
  fits_int64 (raw_image_id target) = true /\
  Exists (fun obj => obj_bbox obj = None)
         (List.filter not_crowd (raw_annotations target)) /\
  ConvertCocoPolysToMask_call blank_rasterize {| return_masks := false |}
    image_6x4 target = Raise (KeyError "bbox").
Proof.
  intros target.
  assert (Hex : Exists (fun obj => obj_bbox obj = None)
                       (List.filter not_crowd (raw_annotations target)))
    by (right; left; reflexivity).
  split; [reflexivity|]. split; [exact Hex|].
  exact (missing_bbox_key_error blank_rasterize {| return_masks := false |}
           image_6x4 target eq_refl Hex).
Defined.

(** X7. Crowd annotations have no effect at all: adding one anywhere in
    the raw list, whatever its other fields, leaves the result of
    [__call__] (target or exception) unchanged. *)
Theorem crowd_annotation_ignored
  (rasterize : Segmentation -> nat -> nat -> result (tensor Z))
  (self : ConvertCocoPolysToMask) (image : Image) (image_id : Z)
  (before after : list RawAnnotation) (crowd : RawAnnotation) :
  not_crowd crowd = false ->
  ConvertCocoPolysToMask_call rasterize self image
    {| raw_image_id := image_id;
       raw_annotations := before ++ crowd :: after |}
  = ConvertCocoPolysToMask_call rasterize self image
      {| raw_image_id := image_id; raw_annotations := before ++ after |}.
Proof.
  intros Hc. unfold ConvertCocoPolysToMask_call.
  cbn [raw_annotations raw_image_id].
  rewrite !List.filter_app. cbn [List.filter]. rewrite Hc. reflexivity.
Qed.

Lemma crowd_annotation_ignored_witness :
  let crowd := mk_obj [100; 100]%Q 3 0 (Some 1%Z) in
  not_crowd crowd = false /\
  ConvertCocoPolysToMask_call blank_rasterize {| return_masks := false |}
    image_6x4
    {| raw_image_id := 7;
       raw_annotations := [mk_obj [1; 1; 2; 2]%Q 3 4 None] ++ crowd :: [] |}
  = ConvertCocoPolysToMask_call blank_rasterize {| return_masks := false |}
      image_6x4
      {| raw_image_id := 7;
         raw_annotations := [mk_obj [1; 1; 2; 2]%Q 3 4 None] ++ [] |}.
Proof.
  intros crowd. split; [reflexivity|].
  apply (crowd_annotation_ignored blank_rasterize {| return_masks := false |}
           image_6x4 7 [mk_obj [1; 1; 2; 2]%Q 3 4 None] [] crowd).
  reflexivity.
Defined.

Lemma clamp_lt_iff (hi a d : Q) :
  (0 <= hi)%Q ->
  (clamp 0 hi a < clamp 0 hi (a + d))%Q <->
  (0 < d)%Q /\ (a < hi)%Q /\ (0 < a + d)%Q /\ (0 < hi)%Q.
Proof.
  intros Hhi. unfold clamp.
  destruct (Q.max_spec a 0) as [[H1 E1]|[H1 E1]];
    destruct (Q.max_spec (a + d) 0) as [[H2 E2]|[H2 E2]];
    set (m1 := Qmax a 0) in *; set (m2 := Qmax (a + d) 0) in *;
    destruct (Q.min_spec m1 hi) as [[H3 E3]|[H3 E3]];
    destruct (Q.min_spec m2 hi) as [[H4 E4]|[H4 E4]];
    rewrite E3, E4; split; intros; lra.
Qed.

(** X8. An annotation's box survives lines 85-107 only if it overlaps
    the image in a region of positive width and height: w > 0,
    x < image_width, x + w > 0 and image_width > 0, and likewise in y.
    A box of non-positive width or height, or one that lies outside the
    image, is always dropped. *)
Theorem box_survives_only_if (w h : nat) (x y bw bh : Q) :
  keep_row (box_row w h (x, y, bw, bh)) = true ->
  ((0 < bw)%Q /\ (x < QofNat w)%Q /\ (0 < x + bw)%Q /\ (0 < QofNat w)%Q) /\
  ((0 < bh)%Q /\ (y < QofNat h)%Q /\ (0 < y + bh)%Q /\ (0 < QofNat h)%Q).
Proof.
  unfold box_row. rewrite row_pipeline. unfold keep_row.
  cbn [xyxy_clamped nth]. rewrite andb_true_iff, !Qltb_lt.
  rewrite (clamp_lt_iff (QofNat w) x bw (QofNat_nonneg w)).
  rewrite (clamp_lt_iff (QofNat h) y bh (QofNat_nonneg h)).
  tauto.
Qed.

Lemma box_survives_only_if_witness :
  keep_row (box_row 640 480 (600, 100, 50, 60)%Q) = true /\
  ((0 < 50)%Q /\ (600 < QofNat 640)%Q /\ (0 < 600 + 50)%Q /\
   (0 < QofNat 640)%Q) /\
  ((0 < 60)%Q /\ (100 < QofNat 480)%Q /\ (0 < 100 + 60)%Q /\
   (0 < QofNat 480)%Q).
Proof.
  split; [reflexivity|].
  exact (box_survives_only_if 640 480 600 100 50 60 eq_refl).
Defined.

Lemma index_mask_ok {A} (t : tensor A) (keep : list bool) (rest : list nat) :
  shape t = length keep :: rest ->
  exists t', index_mask t keep = Ok t'.
Proof.
  intros Hs. unfold index_mask. rewrite Hs, Nat.eqb_refl. eauto.
Qed.

(** X9. [__call__] returns a target on every well-formed input: the image
    id fits int64 and each non-crowd annotation has a [bbox] of four
    numbers a double can hold, a [category_id] that fits int64, an
    [area] that is a float or an int that fits int64, in mask mode a
    [segmentation] the rasteriser turns into a (height, width[, c])
    array, and keypoints that are absent on the first annotation or are
    3K numbers a double can hold on every one. *)
Theorem call_well_formed_ok
  (rasterize : Segmentation -> nat -> nat -> result (tensor Z))
  (self : ConvertCocoPolysToMask) (image : Image) (target : RawTarget)
  (bs : list (Q * Q * Q * Q)) :
  let w := fst (image_size image) in
  let h := snd (image_size image) in
  let anno := List.filter not_crowd (raw_annotations target) in
  fits_int64 (raw_image_id target) = true ->
  annotations_well_formed rasterize (return_masks self) w h anno bs ->
  exists t,
    ConvertCocoPolysToMask_call rasterize self image target = Ok (image, t).
Proof.
  intros w h anno Hid
         (Hb & Hbfit & (cs & Hc & Hfit) & (areas & Ha & Hafit) & Hm & Hkp).
  unfold ConvertCocoPolysToMask_call.
  destruct (image_size image) as [w0 h0]. simpl in w, h. subst w h.
  fold anno. unfold mbind, result_bind.
  assert (Hten : tensor_int64 [raw_image_id target]
                 = Ok (tensor_1d [raw_image_id target])).
  { unfold tensor_int64. cbn [forallb]. rewrite Hid. reflexivity. }
  rewrite Hten. cbn [rbind].
  rewrite (convert_boxes_forward w0 h0 anno bs Hb Hbfit). cbn [rbind].
  rewrite (rmap_getitem_Some "category_id" obj_category_id anno cs Hc).
  cbn [rbind]. unfold tensor_int64 at 1. rewrite Hfit. cbn [rbind].
  rewrite (rmap_getitem_Some "area" obj_area anno areas Ha).
  cbn [rbind]. rewrite (torch_tensor_ok areas Hafit).
  pose proof (not_crowd_iscrowd_zero (raw_annotations target)) as Hz.
  fold anno in Hz. rewrite Hz, tensor_int64_zeros. clear Hz.
  assert (Lb : length bs = length anno).
  { pose proof (f_equal (@length _) Hb) as L.
    rewrite !length_map in L. congruence. }
  pose proof (map_Some_length _ _ _ Hc) as Lc.
  pose proof (map_Some_length _ _ _ Ha) as La.
  set (keep := keep_mask (Tensor [length bs; 4]
                            (concat (List.map (xyxy_clamped w0 h0) bs)))).
  assert (Hkl : length keep = length anno).
  { subst keep. rewrite keep_mask_length. cbn [len shape hd]. exact Lb. }
  assert (Hmasks : exists masks0 masks1,
             (if return_masks self
              then rbind (rmap (fun obj => getitem "segmentation" (obj_segmentation obj)) anno)
                     (fun segmentations =>
                        rbind (convert_coco_poly_to_mask rasterize segmentations h0 w0)
                          (fun masks => Ok (Some masks)))
              else Ok None) = Ok masks0 /\
             index_mask_opt masks0 keep = Ok masks1).
  { destruct (return_masks self).
    - destruct (Hm eq_refl) as (segs & Hs & Hr).
      rewrite (rmap_getitem_Some "segmentation" obj_segmentation anno segs Hs).
      cbn [rbind].
      destruct (convert_coco_poly_to_mask_shape rasterize h0 w0 segs Hr)
        as (m & -> & Hsh).
      cbn [rbind]. exists (Some m). cbn [index_mask_opt].
      unfold mbind, result_bind.
      destruct (index_mask_ok m keep [h0; w0]) as [m' ->];
        [rewrite Hsh, Hkl, (map_Some_length _ _ _ Hs); reflexivity|].
      eexists. split; reflexivity.
    - exists None, None. split; reflexivity. }
  destruct Hmasks as (masks0 & masks1 & -> & Him). cbn [rbind].
  destruct (convert_keypoints_ok anno Hkp) as (kp0 & -> & Hks). cbn [rbind].
  destruct (index_mask_ok (Tensor [length bs; 4]
                             (concat (List.map (xyxy_clamped w0 h0) bs)))
                          keep [4]) as [b' ->];
    [cbn [shape]; rewrite Hkl, Lb; reflexivity|].
  cbn [rbind].
  destruct (index_mask_ok (tensor_1d cs) keep []) as [c' ->];
    [cbn [shape tensor_1d]; rewrite Hkl, Lc; reflexivity|].
  cbn [rbind]. rewrite Him. cbn [rbind].
  assert (Hik : exists kp1, index_mask_opt kp0 keep = Ok kp1).
  { destruct kp0 as [kp|]; [|exists None; reflexivity].
    destruct (Hks kp eq_refl) as [rest Hrest].
    cbn [index_mask_opt]. unfold mbind, result_bind.
    destruct (index_mask_ok kp keep rest) as [kp' ->];
      [rewrite Hrest, Hkl; reflexivity|].
    eexists. reflexivity. }
  destruct Hik as (kp1 & ->). cbn [rbind].
  destruct (index_mask_ok (tensor_1d (List.map py_value areas)) keep [])
    as [a' ->];
    [cbn [shape tensor_1d]; rewrite length_map, Hkl, La; reflexivity|].
  cbn [rbind].
  destruct (index_mask_ok (Tensor [length anno] (repeat 0%Z (length anno)))
                          keep []) as [i' ->];
    [cbn [shape]; rewrite Hkl; reflexivity|].
  cbn [rbind]. eexists. reflexivity.
Qed.

Lemma sample_6x4_well_formed :
  annotations_well_formed blank_rasterize true 6 4
    (List.filter not_crowd (raw_annotations sample_6x4)) sample_6x4_boxes.
Proof.
  split; [reflexivity|]. split; [repeat constructor|].
  split; [exists [3; 5]%Z; split; reflexivity|].
  split; [exists [PyFloat 2; PyFloat 2]; split; reflexivity|]. split.
  - intros _. exists [Polygons []; Polygons []]. split; [reflexivity|].
    repeat constructor; (eexists; split; [reflexivity|]; left; reflexivity).
  - right. exists 2, [[1; 1; 2; 2; 2; 1]; [2; 1; 2; 3; 1; 0]]%Q.
    split; [reflexivity|]. split; repeat constructor.
Qed.

Lemma call_well_formed_ok_witness :
  fits_int64 (raw_image_id sample_6x4) = true /\
  annotations_well_formed blank_rasterize true 6 4
    (List.filter not_crowd (raw_annotations sample_6x4)) sample_6x4_boxes /\
  exists t,
    ConvertCocoPolysToMask_call blank_rasterize {| return_masks := true |}
      image_6x4 sample_6x4 = Ok (image_6x4, t).
Proof.
  split; [reflexivity|]. split; [exact sample_6x4_well_formed|].
  exact (call_well_formed_ok blank_rasterize {| return_masks := true |}
           image_6x4 sample_6x4 sample_6x4_boxes eq_refl sample_6x4_well_formed).
Defined.

(* ===================================================================== *)
(** ** Further properties of the split pipelines *)

Lemma string_eqb_false (a b : string) : a <> b -> String.eqb a b = false.
Proof. intros H. destruct (String.eqb_spec a b); [contradiction|reflexivity]. Qed.

(** X10. [make_coco_transforms] returns a pipeline exactly for 'train',
    'extra' and 'val', and raises ValueError otherwise; every pipeline
    it returns is a [Compose] whose last step is [normalize]
    (ToTensor, then Normalize with the ImageNet mean and std). *)
Theorem pipeline_ends_with_normalize (image_set : string) (fix_size : bool) :
  match make_coco_transforms image_set fix_size with
  | Ok p => known_split image_set /\
            exists before, p = Compose (before ++ [normalize])
  | Raise e => ~ known_split image_set /\
               e = ValueError ("unknown " ++ image_set)
  end.
Proof.
  unfold make_coco_transforms, known_split.
  destruct (String.eqb_spec image_set "train") as [->|Ht].
  { split; [tauto|]. eexists [_; _]. reflexivity. }
  destruct (String.eqb_spec image_set "extra") as [->|He].
  { destruct fix_size; (split; [tauto|]).
    - eexists [_; _]. reflexivity.
    - exists []. reflexivity. }
  destruct (String.eqb_spec image_set "val") as [->|Hv].
  { split; [tauto|]. eexists [_]. reflexivity. }
  split; [tauto | reflexivity].
Qed.

(** X11. The [fix_size] flag matters for 'extra' only: for any other
    split name the result is the same whatever the flag, and a returned
    pipeline holds a horizontal flip exactly when the split is 'train'
    (the 'val' pipeline never flips). *)
Theorem fix_size_only_for_extra (image_set : string) (fix_size : bool) :
  image_set <> "extra" ->
  make_coco_transforms image_set fix_size
  = make_coco_transforms image_set (negb fix_size) /\
  forall p, make_coco_transforms image_set fix_size = Ok p ->
            has_flip p = String.eqb image_set "train".
Proof.
  intros He. unfold make_coco_transforms.
  rewrite (string_eqb_false _ _ He).
  destruct (String.eqb image_set "train"); [split; [reflexivity|]|].
  { intros p [= <-]. reflexivity. }
  destruct (String.eqb image_set "val"); split; try reflexivity.
  - intros p [= <-]. reflexivity.
  - discriminate.
Qed.

Lemma fix_size_only_for_extra_witness :
  "val" <> "extra" /\
  make_coco_transforms "val" true = make_coco_transforms "val" false /\
  forall p, make_coco_transforms "val" true = Ok p -> has_flip p = false.
Proof.
  assert (H : "val" <> "extra") by discriminate.
  split; [exact H|]. exact (fix_size_only_for_extra "val" true H).
Defined.

(* ===================================================================== *)
(** ** Further properties of the dataset view *)

Lemma get_paths_lookup (args : Args) (pseudo : bool) (image_set : string)
      (paths : string * string) :
  get_paths args pseudo !! image_set = Some paths ->
  image_set = "train" \/ image_set = "val".
Proof.
  unfold get_paths. intros H.
  destruct (decide (image_set = "train")) as [|Ht]; [left; assumption|].
  destruct (decide (image_set = "val")) as [|Hv]; [right; assumption|].
  rewrite lookup_insert_ne in H by congruence.
  rewrite lookup_insert_ne in H by congruence.
  rewrite lookup_empty in H. discriminate.
Qed.

(** X12. [build] returns a dataset only for 'train' and 'val' (for
    'extra', which [make_coco_transforms] knows, the path lookup raises
    KeyError) and only with [class_ids] given; the dataset it returns
    holds the parent's image ids, the catalogue restricted to
    [class_ids], the split's pipeline with
    [fix_size = (Sampling_strategy == 'icarl')] and a normaliser with
    [return_masks = args.masks]. *)
Theorem build_ok_inv
  (TvCocoDetection_init :
     string -> string -> bool -> Z -> Z ->
     option (list Z) -> option (list Z) -> result TvCocoDetection)
  (get_local_rank get_local_size : Z)
  (image_set : string) (args : Args)
  (img_ids class_ids : option (list Z)) (pseudo : bool) (ds : CocoDetection) :
  build TvCocoDetection_init get_local_rank get_local_size
        image_set args img_ids class_ids pseudo = Ok ds ->
  (image_set = "train" \/ image_set = "val") /\
  build TvCocoDetection_init get_local_rank get_local_size
        "extra" args img_ids class_ids pseudo = Raise (KeyError "extra") /\
  exists img_folder ann_file ids_ p tv,
    get_paths args pseudo !! image_set = Some (img_folder, ann_file) /\
    class_ids = Some ids_ /\
    TvCocoDetection_init img_folder ann_file (cache_mode args)
      get_local_rank get_local_size img_ids (Some ids_) = Ok tv /\
    make_coco_transforms image_set
      (String.eqb (Sampling_strategy args) "icarl") = Ok p /\
    ds = {| tv_base := {| coco := {| cats := restrict_cats (cats (coco tv)) ids_ |};
                          ids := ids tv |};
            _transforms := Some p;
            prepare := {| return_masks := args_masks args |} |}.
Proof.
  intros H. unfold build in H.
  destruct (get_paths args pseudo !! image_set) as [[img_folder ann_file]|] eqn:Ep;
    [|discriminate H].
  split; [exact (get_paths_lookup _ _ _ _ Ep)|]. split; [reflexivity|].
  cbn [getitem] in H. unfold mbind, result_bind in H. cbn [rbind] in H.
  destruct (make_coco_transforms image_set _) as [p|] eqn:Em; [|discriminate H].
  cbn [rbind] in H. unfold CocoDetection_init, mbind, result_bind in H.
  destruct (TvCocoDetection_init _ _ _ _ _ _ _) as [tv|] eqn:Ei; [|discriminate H].
  cbn [rbind] in H. destruct class_ids as [ids_|]; [|discriminate H].
  cbn [iter rbind] in H. injection H as <-.
  exists img_folder, ann_file, ids_, p, tv. repeat split. exact Ei.
Qed.

Lemma build_ok_inv_witness :
  exists ds,
    build store_5_7_init 0 1 "val" sample_args None (Some [5; 999]%Z) false
    = Ok ds /\
    cats (coco (tv_base ds)) !! 5%Z = Some cat_5 /\
    cats (coco (tv_base ds)) !! 7%Z = None /\
    ids (tv_base ds) = [1; 2; 3]%Z /\
    _transforms ds = Some (Compose [RandomResize [SizeInt 800] (Some 1333%Z);
                                    normalize]).
Proof.
  destruct (build store_5_7_init 0 1 "val" sample_args None
              (Some [5; 999]%Z) false) as [ds|e] eqn:E;
    [|vm_compute in E; discriminate E].
  exists ds. split; [reflexivity|].
  destruct (build_ok_inv _ _ _ _ _ _ _ _ _ E)
    as (_ & _ & f & a & l & p & tv & Hp & Hl & Hi & Hm & ->).
  injection Hl as <-. injection Hi as <-. injection Hm as <-.
  cbn [tv_base coco cats ids _transforms]. rewrite !restrict_cats_lookup.
  repeat split.
Defined.

(** X13. A sample fetch that returns did, in this order: fetch the raw
    sample from the parent, look up [ids[idx]] (Python indexing, so a
    negative [idx] counts from the end), normalise with that original
    image id in the target, and apply the pipeline if there is one; with
    no pipeline the normalised sample is the result. *)
Theorem getitem_ok_inv
  (rasterize : Segmentation -> nat -> nat -> result (tensor Z))
  (TvCocoDetection_getitem :
     TvCocoDetection -> Z -> result (Image * list RawAnnotation))
  (apply_transforms : Transform -> Image * Target -> result (Image * Target))
  (self : CocoDetection) (idx : Z) (img' : Image) (t' : Target) :
  CocoDetection_getitem rasterize TvCocoDetection_getitem apply_transforms
    self idx = Ok (img', t') ->
  exists img raw image_id t0,
    let n := Z.of_nat (length (ids (tv_base self))) in
    TvCocoDetection_getitem (tv_base self) idx = Ok (img, raw) /\
    (- n <= idx < n)%Z /\
    nth_error (ids (tv_base self))
              (Z.to_nat (if (idx <? 0)%Z then idx + n else idx)%Z)
    = Some image_id /\
    ConvertCocoPolysToMask_call rasterize (prepare self) img
      {| raw_image_id := image_id; raw_annotations := raw |} = Ok (img, t0) /\
    target_image_id t0 = tensor_1d [image_id] /\
    match _transforms self with
    | Some transforms => apply_transforms transforms (img, t0) = Ok (img', t')
    | None => (img', t') = (img, t0)
    end.
Proof.
  intros H. unfold CocoDetection_getitem, mbind, result_bind in H.
  destruct (TvCocoDetection_getitem (tv_base self) idx) as [[img raw]|] eqn:Ef;
    [|discriminate H].
  cbn [rbind] in H.
  destruct (list_getitem (ids (tv_base self)) idx) as [image_id|] eqn:Ei;
    [|discriminate H].
  cbn [rbind] in H.
  destruct (ConvertCocoPolysToMask_call rasterize (prepare self) img _)
    as [[img0 t0]|] eqn:Ec; [|discriminate H].
  cbn [rbind] in H.
  pose proof (call_returns_image _ _ _ _ _ _ Ec) as ->.
  exists img, raw, image_id, t0. cbn zeta.
  unfold list_getitem in Ei.
  set (n := Z.of_nat (length (ids (tv_base self)))) in *.
  set (i := (if (idx <? 0)%Z then (idx + n)%Z else idx)) in *.
  destruct ((0 <=? i)%Z && (i <? n)%Z) eqn:Er; [|discriminate Ei].
  apply andb_true_iff in Er as [Hlo Hhi].
  apply Z.leb_le in Hlo. apply Z.ltb_lt in Hhi.
  destruct (nth_error (ids (tv_base self)) (Z.to_nat i)) as [x|] eqn:En;
    [|discriminate Ei].
  injection Ei as ->.
  split; [reflexivity|]. split.
  { subst i. destruct (Z.ltb_spec idx 0); lia. }
  split; [reflexivity|]. split; [exact Ec|]. split.
  { destruct (call_inv_full _ _ _ _ _ _ Ec)
      as (? & ? & ? & ? & ? & _ & _ & _ & _ & _ & _ & _
          & _ & _ & _ & _ & _ & _ & Hid & _).
    exact Hid. }
  destruct (_transforms self); [exact H | congruence].
Qed.

Lemma getitem_ok_inv_witness :
  exists t,
    CocoDetection_getitem blank_rasterize sample_fetch identity_transforms
      three_image_view (-1) = Ok (image_6x4, t) /\
    target_image_id t = tensor_1d [33%Z].
Proof.
  destruct (CocoDetection_getitem blank_rasterize sample_fetch
              identity_transforms three_image_view (-1))
    as [[img' t]|e] eqn:E; [|vm_compute in E; discriminate E].
  destruct (getitem_ok_inv _ _ _ _ _ _ _ E)
    as (img & raw & image_id & t0 & Hf & _ & Hn & _ & Hid & Ht).
  injection Hf as <- <-. injection Hn as <-.
  cbn [three_image_view _transforms] in Ht. injection Ht as -> ->.
  exists t0. split; [reflexivity | exact Hid].
Defined.

(** X14. The restricted catalogue depends on [class_ids] as a set only:
    the order in which the ids are iterated, and repetitions, make no
    difference. *)
Theorem restrict_cats_order_independent (store : gmap Z Category)
        (class_ids1 class_ids2 : list Z) :
  (forall k : Z, k ∈ class_ids1 <-> k ∈ class_ids2) ->
  restrict_cats store class_ids1 = restrict_cats store class_ids2.
Proof.
  intros H. apply map_eq. intros k. rewrite !restrict_cats_lookup.
  destruct (decide (k ∈ class_ids1)) as [H1|H1].
  - rewrite !bool_decide_eq_true_2; [reflexivity | apply H, H1 | exact H1].
  - rewrite !bool_decide_eq_false_2; [reflexivity | | exact H1].
    intros H2. apply H1, H, H2.
Qed.

Lemma restrict_cats_order_independent_witness :
  (forall k : Z, k ∈ [5; 999; 7]%Z <-> k ∈ [7; 5; 7; 999]%Z) /\
  restrict_cats (<[5%Z := cat_5]> (<[7%Z := cat_7]> ∅)) [5; 999; 7]%Z
  = restrict_cats (<[5%Z := cat_5]> (<[7%Z := cat_7]> ∅)) [7; 5; 7; 999]%Z.
Proof.
  assert (H : forall k : Z, k ∈ [5; 999; 7]%Z <-> k ∈ [7; 5; 7; 999]%Z).
  { intros k. rewrite !elem_of_cons, !elem_of_nil. tauto. }
  split; [exact H|].
  exact (restrict_cats_order_independent _ _ _ H).
Defined.

(** X15. The loop of lines 33-38 never invents or alters an entry: the
    restricted catalogue is a sub-map of the store's.  Restricting again
    by the same ids changes nothing, and restricting a restricted
    catalogue by further ids keeps the ids present in both lists. *)
Theorem restrict_cats_submap (store : gmap Z Category) (class_ids : list Z) :
  restrict_cats store class_ids ⊆ store /\
  restrict_cats (restrict_cats store class_ids) class_ids
  = restrict_cats store class_ids /\
  forall more : list Z,
    restrict_cats (restrict_cats store class_ids) more
    = restrict_cats store
        (List.filter (fun k => bool_decide (k ∈ class_ids)) more).
Proof.
  assert (Hcomp : forall more : list Z,
             restrict_cats (restrict_cats store class_ids) more
             = restrict_cats store
                 (List.filter (fun k => bool_decide (k ∈ class_ids)) more)).
  { intros more. apply map_eq. intros k. rewrite !restrict_cats_lookup.
    destruct (decide (k ∈ more)) as [Hm|Hm];
      destruct (decide (k ∈ class_ids)) as [Hc|Hc].
    - rewrite !bool_decide_eq_true_2; try assumption; [reflexivity|].
      apply list_elem_of_In, filter_In. split; [apply list_elem_of_In, Hm|].
      apply bool_decide_eq_true_2, Hc.
    - rewrite (bool_decide_eq_true_2 _ Hm), (bool_decide_eq_false_2 _ Hc).
      rewrite bool_decide_eq_false_2; [reflexivity|].
      intros Hin. apply list_elem_of_In, filter_In in Hin as [_ Hb].
      apply bool_decide_eq_true_1 in Hb. contradiction.
    - rewrite (bool_decide_eq_false_2 _ Hm).
      rewrite bool_decide_eq_false_2; [reflexivity|].
      intros Hin. apply list_elem_of_In, filter_In in Hin as [Hin _].
      apply Hm, list_elem_of_In, Hin.
    - rewrite (bool_decide_eq_false_2 _ Hm).
      rewrite bool_decide_eq_false_2; [reflexivity|].
      intros Hin. apply list_elem_of_In, filter_In in Hin as [Hin _].
      apply Hm, list_elem_of_In, Hin. }
  split; [|split; [|exact Hcomp]].
  - apply map_subseteq_spec. intros k c. rewrite restrict_cats_lookup.
    destruct (bool_decide (k ∈ class_ids)); [tauto | discriminate].
  - apply map_eq. intros k. rewrite !restrict_cats_lookup.
    destruct (bool_decide (k ∈ class_ids)); reflexivity.
Qed.

(** X16. When [class_ids] holds every id of the store's catalogue, the
    loop leaves the catalogue as it is. *)
Theorem restrict_cats_all (store : gmap Z Category) (class_ids : list Z) :
  (forall k : Z, is_Some (store !! k) -> k ∈ class_ids) ->
  restrict_cats store class_ids = store.
Proof.
  intros H. apply map_eq. intros k. rewrite restrict_cats_lookup.
  destruct (store !! k) as [c|] eqn:Ek.
  - rewrite bool_decide_eq_true_2; [reflexivity|]. apply H. rewrite Ek. eauto.
  - destruct (bool_decide (k ∈ class_ids)); reflexivity.
Qed.

Lemma restrict_cats_all_witness :
  let store : gmap Z Category := <[5%Z := cat_5]> (<[7%Z := cat_7]> ∅) in
  (forall k : Z, is_Some (store !! k) -> k ∈ [7; 5; 999]%Z) /\
  restrict_cats store [7; 5; 999]%Z = store.
Proof.
  intros store.
  assert (H : forall k : Z, is_Some (store !! k) -> k ∈ [7; 5; 999]%Z).
  { intros k [c Hk]. subst store. rewrite !elem_of_cons.
    destruct (decide (k = 5%Z)) as [|H5]; [tauto|].
    destruct (decide (k = 7%Z)) as [|H7]; [tauto|].
    rewrite lookup_insert_ne in Hk by congruence.
    rewrite lookup_insert_ne in Hk by congruence.
    rewrite lookup_empty in Hk. discriminate. }
  split; [exact H|]. exact (restrict_cats_all store _ H).
Defined.

(* ===================================================================== *)
(** ** Further properties of the mask conversion *)

Lemma chunks_lengths {A} (n c : nat) (d : list A) :
  length d = n * c -> Forall (fun b => length b = c) (chunks n c d).
Proof.
  revert d. induction n as [|n IH]; intros d H; simpl; constructor.
  - rewrite length_take. simpl in H. lia.
  - apply IH. rewrite length_drop. simpl in H. lia.
Qed.

Lemma any_block (blk : list bool) :
  fold_right (fun x acc => List.map (fun p => orb (fst p) (snd p)) (combine x acc))
             [false] (List.map (fun b => [b]) blk)
  = [existsb (fun b => b) blk].
Proof.
  induction blk as [|b blk IH]; [reflexivity|].
  cbn [List.map fold_right]. rewrite IH. reflexivity.
Qed.

Lemma existsb_map {A} (f : A -> bool) (l : list A) :
  existsb (fun b => b) (List.map f l) = existsb f l.
Proof. induction l as [|x l IH]; simpl; [|rewrite IH]; reflexivity. Qed.

(** [m.any(dim=2)] on a (a, b, c) array: one flag per (i, j), set when
    some channel is non-zero. *)
Lemma any_dim2_channels (a b c : nat) (d : list Z) :
  length d = a * b * c ->
  any_dim2 (Tensor [a; b; c] d)
  = Ok (Tensor [a; b]
          (List.map (existsb (fun v => negb (v =? 0)%Z)) (chunks (a * b) c d))).
Proof.
  intros Hlen. unfold any_dim2. cbn [shape data numel fold_right repeat].
  rewrite Nat.mul_1_r. do 2 f_equal.
  pose proof (chunks_lengths (a * b) c d Hlen) as Hall.
  induction Hall as [|blk blks Hblk _ IH]; [reflexivity|].
  cbn [List.map concat]. rewrite IH. f_equal.
  rewrite <- Hblk, <- (length_map (fun v => negb (v =? 0)%Z) blk).
  rewrite chunks_singletons, any_block, existsb_map. reflexivity.
Qed.

Lemma loop_body_bitmap (height width : nat) (m : tensor Z) :
  decoded_mask height width m ->
  any_dim2 (if length (shape m) <? 3 then unsqueeze_last m else m)
  = Ok (Tensor [height; width] (bitmap height width m)).
Proof.
  intros [[Hs | [c Hs]] Hlen]; unfold channels in Hlen; unfold bitmap, channels;
    rewrite Hs in *; cbn [length Nat.ltb Nat.leb].
  - unfold unsqueeze_last. rewrite Hs. cbn [app].
    apply any_dim2_channels. exact Hlen.
  - destruct m as [s d]. cbn [shape data] in *. subst s.
    apply any_dim2_channels. exact Hlen.
Qed.

(** X17. When the rasteriser decodes the segmentations [segs] into the
    arrays [ms], lines 54-68 return an (N, height, width) stack, also for
    N = 0, whose i-th bitmap belongs to the i-th segmentation and has a
    pixel set exactly when one of that pixel's channels is non-zero. *)
Theorem masks_stack_bitmaps
  (rasterize : Segmentation -> nat -> nat -> result (tensor Z))
  (height width : nat) (segs : list Segmentation) (ms : list (tensor Z)) :
  List.map (fun seg => rasterize seg height width) segs = List.map Ok ms ->
  Forall (decoded_mask height width) ms ->
  convert_coco_poly_to_mask rasterize segs height width
  = Ok (Tensor [length segs; height; width]
               (concat (List.map (bitmap height width) ms))).
Proof.
  intros Hr Hd. unfold convert_coco_poly_to_mask, mbind, result_bind.
  assert (Hmap : rmap (fun polygons =>
                         rbind (rasterize polygons height width)
                           (fun mask =>
                              any_dim2 (if length (shape mask) <? 3
                                        then unsqueeze_last mask else mask)))
                      segs
                 = Ok (List.map (fun m => Tensor [height; width]
                                            (bitmap height width m)) ms)).
  { revert ms Hr Hd. induction segs as [|seg segs IH]; intros [|m ms] Hr Hd;
      try discriminate; [reflexivity|].
    cbn [List.map] in Hr. injection Hr as Hm Hr.
    inversion Hd as [|? ? Hdm Hds]; subst.
    cbn [rmap List.map]. unfold mbind, result_bind. rewrite Hm. cbn [rbind].
    rewrite (loop_body_bitmap height width m Hdm). cbn [rbind].
    rewrite (IH ms Hr Hds). reflexivity. }
  rewrite Hmap. cbn [rbind].
  assert (Hlen : length ms = length segs).
  { pose proof (f_equal (@length _) Hr) as L. rewrite !length_map in L. lia. }
  destruct ms as [|m0 ms].
  - destruct segs; [|discriminate Hlen]. reflexivity.
  - cbn [List.map]. unfold stack.
    assert (Hsh : forallb (fun t : tensor bool =>
                             bool_decide (shape t = [height; width]))
                    (Tensor [height; width] (bitmap height width m0)
                       :: List.map (fun m => Tensor [height; width]
                                               (bitmap height width m)) ms)
                  = true).
    { apply forallb_forall. intros t Hin. apply bool_decide_eq_true_2.
      change (In t (List.map (fun m => Tensor [height; width]
                                         (bitmap height width m)) (m0 :: ms)))
        in Hin.
      apply in_map_iff in Hin as (m & <- & _). reflexivity. }
    cbn [shape]. rewrite Hsh. cbn [length]. rewrite length_map.
    rewrite <- Hlen. cbn [length]. do 2 f_equal.
    change (concat (List.map data
                      (List.map (fun m => Tensor [height; width]
                                            (bitmap height width m)) (m0 :: ms)))
            = concat (List.map (bitmap height width) (m0 :: ms))).
    rewrite map_map. reflexivity.
Qed.

Lemma masks_stack_bitmaps_witness :
  let ms := [Tensor [1; 3; 2] [0; 0; 1; 0; 0; 1]%Z;
             Tensor [1; 3; 2] [0; 0; 1; 0; 0; 1]%Z] in
  let segs := [Polygons []; RLE (1, 3) [1; 2]] in
  List.map (fun seg => two_channel_rasterize seg 1 3) segs = List.map Ok ms /\
  Forall (decoded_mask 1 3) ms /\
  convert_coco_poly_to_mask two_channel_rasterize segs 1 3
  = Ok (Tensor [2; 1; 3] [false; true; true; false; true; true]).
Proof.
  intros ms segs.
  assert (Hd : Forall (decoded_mask 1 3) ms).
  { assert (H1 : decoded_mask 1 3 (Tensor [1; 3; 2] [0; 0; 1; 0; 0; 1]%Z))
      by (split; [right; exists 2; reflexivity | reflexivity]).
    constructor; [exact H1|]. constructor; [exact H1 | constructor]. }
  split; [reflexivity|]. split; [exact Hd|].
  exact (masks_stack_bitmaps two_channel_rasterize 1 3 segs ms eq_refl Hd).
Defined.

(* ===================================================================== *)
(** ** Keypoints, boxes inside the image, fetch errors *)

Lemma rows_uniform_rest {A} (rest : list nat) (l : list (list A)) :
  Forall (fun r => length r = numel rest) l ->
  rows (Tensor (length l :: rest) (concat l)) = l.
Proof.
  intros H. unfold rows, len. cbn [shape hd tl data].
  apply chunks_concat. exact H.
Qed.

(** X18. When the first non-crowd annotation carries keypoints and
    [__call__] returns, row i of the target's (N, K, 3) keypoints tensor
    holds the keypoints of the i-th surviving annotation, in order. *)
Theorem target_keypoints_aligned
  (rasterize : Segmentation -> nat -> nat -> result (tensor Z))
  (self : ConvertCocoPolysToMask) (image image' : Image)
  (target : RawTarget) (t : Target) (k0 : list Q) :
  let w := fst (image_size image) in
  let h := snd (image_size image) in
  let anno := List.filter not_crowd (raw_annotations target) in
  let kept := List.filter (survives w h) anno in
  ConvertCocoPolysToMask_call rasterize self image target = Ok (image', t) ->
  first_keypoints anno = Some k0 ->
  exists K,
    length k0 = K * 3 /\
    target_keypoints t
    = Some (Tensor [length kept; K; 3] (concat (omap obj_keypoints kept))).
Proof.
  intros w h anno kept Hcall Hfirst.
  destruct (call_ok_bboxes _ _ _ _ _ _ Hcall) as [bs Hbs]. fold anno in Hbs.
  destruct (call_inv_full _ _ _ _ _ _ Hcall)
    as (boxes0 & cs & masks0 & kp0 & areas & _ & Hb & _ & _ & _ & Hkp & _
        & _ & _ & _ & Hik & _).
  fold w h anno in Hb, Hkp.
  pose proof (convert_boxes_spec w h anno bs boxes0 Hbs Hb) as Hspec.
  rewrite Hspec in Hb. clear Hspec. injection Hb as <-.
  destruct (convert_keypoints_present anno k0 kp0 Hfirst Hkp)
    as (K & kps & Hall & Hlen & ->).
  assert (Hkeep : keep_mask (Tensor [length bs; 4]
                               (concat (List.map (xyxy_clamped w h) bs)))
                  = List.map (survives w h) anno).
  { unfold keep_mask.
    rewrite <- (length_map (xyxy_clamped w h) bs) at 1.
    rewrite rows_uniform
      by (apply Forall_length_map; intros [[[? ?] ?] ?]; reflexivity).
    rewrite <- (obj_box_rows w h anno bs Hbs), map_map. reflexivity. }
  rewrite Hkeep in Hik. cbn [index_mask_opt] in Hik.
  unfold mbind, result_bind in Hik.
  destruct (index_mask _ _) as [kp'|] eqn:Ei; [|discriminate Hik].
  cbn [rbind] in Hik. injection Hik as Hk.
  exists K. split.
  { destruct anno as [|obj0 anno']; [discriminate Hfirst|].
    destruct kps as [|k kps']; [discriminate Hall|].
    cbn [first_keypoints] in Hfirst. cbn [List.map] in Hall.
    injection Hall as Hk0 _. rewrite Hfirst in Hk0. injection Hk0 as ->.
    inversion Hlen; assumption. }
  rewrite <- Hk. f_equal.
  unfold index_mask in Ei. cbn [shape] in Ei.
  rewrite length_map, Nat.eqb_refl in Ei. injection Ei as <-.
  rewrite <- (map_Some_length _ _ _ Hall).
  rewrite (rows_uniform_rest [K; 3] kps).
  2:{ eapply Forall_impl; [exact Hlen|]. intros r Hr. cbv beta in Hr.
      unfold numel. cbn [fold_right]. rewrite Hr. lia. }
  assert (Hsel : select (List.map (survives w h) anno) kps
                 = omap obj_keypoints kept).
  { subst kept. rewrite <- (select_map_filter (survives w h) anno).
    symmetry. apply select_omap, Hall. }
  rewrite Hsel. f_equal. f_equal.
  subst kept. rewrite <- Hsel.
  rewrite <- (select_map_filter (survives w h) anno).
  apply select_length_eq. exact (map_Some_length _ _ _ Hall).
Qed.

Lemma target_keypoints_aligned_witness :
  exists t,
    ConvertCocoPolysToMask_call blank_rasterize {| return_masks := true |}
      image_6x4 sample_6x4 = Ok (image_6x4, t) /\
    target_keypoints t = Some (Tensor [1; 2; 3] [1; 1; 2; 2; 2; 1]%Q).
Proof.
  destruct (ConvertCocoPolysToMask_call blank_rasterize {| return_masks := true |}
              image_6x4 sample_6x4) as [[image' t]|e] eqn:E;
    [| vm_compute in E; discriminate E].
  pose proof (call_returns_image _ _ _ _ _ _ E) as ->.
  exists t. split; [reflexivity|].
  destruct (target_keypoints_aligned blank_rasterize {| return_masks := true |}
              image_6x4 image_6x4 sample_6x4 t [1; 1; 2; 2; 2; 1]%Q E eq_refl)
    as (K & HK & Ht).
  assert (K = 2) as -> by (simpl in HK; lia).
  exact Ht.
Defined.

(** X20. The sample fetch raises whatever the parent's [__getitem__]
    raises; and when the parent returns but [idx] is outside
    [-len(ids), len(ids)), it raises IndexError before normalising
    anything. *)
Theorem getitem_errors
  (rasterize : Segmentation -> nat -> nat -> result (tensor Z))
  (TvCocoDetection_getitem :
     TvCocoDetection -> Z -> result (Image * list RawAnnotation))
  (apply_transforms : Transform -> Image * Target -> result (Image * Target))
  (self : CocoDetection) (idx : Z) :
  let n := Z.of_nat (length (ids (tv_base self))) in
  match TvCocoDetection_getitem (tv_base self) idx with
  | Raise e =>
      CocoDetection_getitem rasterize TvCocoDetection_getitem apply_transforms
        self idx = Raise e
  | Ok _ =>
      (idx < - n \/ n <= idx)%Z ->
      CocoDetection_getitem rasterize TvCocoDetection_getitem apply_transforms
        self idx = Raise (IndexError "list index out of range")
  end.
Proof.
  intros n. unfold CocoDetection_getitem, mbind, result_bind.
  destruct (TvCocoDetection_getitem (tv_base self) idx) as [[img raw]|e];
    [|reflexivity].
  intros Hout. cbn [rbind]. unfold list_getitem. fold n.
  assert (Hr : ((0 <=? (if (idx <? 0)%Z then (idx + n)%Z else idx))%Z
                && ((if (idx <? 0)%Z then (idx + n)%Z else idx) <? n)%Z)
               = false).
  { apply andb_false_iff. destruct (Z.ltb_spec idx 0).
    - left. apply Z.leb_gt. lia.
    - right. apply Z.ltb_ge. lia. }
  rewrite Hr. reflexivity.
Qed.

Lemma getitem_errors_witness :
  (3 <= 3)%Z /\
  CocoDetection_getitem blank_rasterize sample_fetch identity_transforms
    three_image_view 3 = Raise (IndexError "list index out of range").
Proof.
  split; [lia|].
  apply (getitem_errors blank_rasterize sample_fetch identity_transforms
           three_image_view 3).
  right. simpl. lia.
Defined.

(* ===================================================================== *)
(** ** Numbers a tensor cannot hold *)

(** A successful [__call__] converted the areas at line 125. *)
Lemma call_area_converted
  (rasterize : Segmentation -> nat -> nat -> result (tensor Z))
  (self : ConvertCocoPolysToMask) (image image' : Image)
  (target : RawTarget) (t : Target) :
  ConvertCocoPolysToMask_call rasterize self image target = Ok (image', t) ->
  exists areas area0,
    List.map obj_area (List.filter not_crowd (raw_annotations target))
    = List.map Some areas /\
    torch_tensor areas = Ok area0.
Proof.
  unfold ConvertCocoPolysToMask_call.
  destruct (image_size image) as [w h].
  intros H. inv_bind H.
  match goal with
  | Ha : rmap (fun obj => getitem "area" _) _ = Ok ?ar,
    Hat : torch_tensor ?ar = Ok ?a0 |- _ =>
      exists ar, a0; split; [|exact Hat];
      exact (rmap_getitem_inv "area" obj_area _ _ Ha)
  end.
Qed.

(** X21. [__call__] returns only if every [bbox] number of a non-crowd
    annotation can be held by a double and, when all their areas are
    Python ints, only if each area fits int64: an int area of 2^63 makes
    line 125 raise even on an annotation whose box the keep-mask would
    drop. *)
Theorem call_ok_numbers_fit
  (rasterize : Segmentation -> nat -> nat -> result (tensor Z))
  (self : ConvertCocoPolysToMask) (image image' : Image)
  (target : RawTarget) (t : Target) :
  ConvertCocoPolysToMask_call rasterize self image target = Ok (image', t) ->
  let anno := List.filter not_crowd (raw_annotations target) in
  Forall (fun obj => forall l, obj_bbox obj = Some l ->
                               forallb fits_double l = true) anno /\
  (Forall (fun obj => forall n, obj_area obj = Some n -> is_py_int n = true)
          anno ->
   Forall (fun obj => forall z, obj_area obj = Some (PyInt z) ->
                                fits_int64 z = true) anno) /\
  (exists e,
     ConvertCocoPolysToMask_call rasterize {| return_masks := false |}
       image_640x480
       {| raw_image_id := 1;
          raw_annotations :=
            [mk_obj [100; 100; 50; 0]%Q 3 (2 ^ 63) (Some 0%Z)] |}
     = Raise e).
Proof.
  intros Hcall anno. split; [|split; [|eexists; vm_compute; reflexivity]].
  - destruct (call_ok_bboxes _ _ _ _ _ _ Hcall) as [bs Hbs]. fold anno in Hbs.
    destruct (call_convert_boxes_ok _ _ _ _ _ _ Hcall) as [boxes0 Hb].
    fold anno in Hb.
    pose proof (convert_boxes_fits _ _ anno bs boxes0 Hbs Hb) as Hfit.
    apply Forall_forall. intros obj Hin l Hl.
    apply list_elem_of_In in Hin.
    assert (Hi : In (Some l) (List.map obj_bbox anno))
      by (rewrite <- Hl; apply in_map, Hin).
    rewrite Hbs in Hi. apply in_map_iff in Hi as (b & [= <-] & Hb').
    rewrite Forall_forall in Hfit. apply Hfit, list_elem_of_In, Hb'.
  - intros Hint.
    destruct (call_area_converted _ _ _ _ _ _ Hcall) as (areas & a0 & Ha & Ht).
    fold anno in Ha. unfold torch_tensor in Ht.
    assert (Hall : forallb is_py_int areas = true).
    { apply forallb_forall. intros n Hn.
      assert (Hi : In (Some n) (List.map obj_area anno))
        by (rewrite Ha; apply in_map, Hn).
      apply in_map_iff in Hi as (obj & Hobj & Hin).
      rewrite Forall_forall in Hint.
      apply (Hint obj); [apply list_elem_of_In, Hin | exact Hobj]. }
    rewrite Hall in Ht.
    destruct (forallb (fits_dtype true) areas) eqn:Hfit; [|discriminate Ht].
    apply Forall_forall. intros obj Hin z Hz.
    apply list_elem_of_In in Hin.
    assert (Hi : In (Some (PyInt z)) (List.map Some areas))
      by (rewrite <- Ha, <- Hz; apply in_map, Hin).
    apply in_map_iff in Hi as (n & [= ->] & Hn).
    rewrite forallb_forall in Hfit. exact (Hfit (PyInt z) Hn).
Qed.

Lemma call_ok_numbers_fit_witness :
  exists t,
    ConvertCocoPolysToMask_call blank_rasterize {| return_masks := false |}
      image_640x480
      {| raw_image_id := 1;
         raw_annotations := [mk_obj [100; 100; 50; 60]%Q 3 3000 (Some 0%Z)] |}
    = Ok (image_640x480, t) /\
    fits_int64 3000 = true /\
    forallb fits_double [100; 100; 50; 60]%Q = true.
Proof.
  destruct (ConvertCocoPolysToMask_call blank_rasterize {| return_masks := false |}
              image_640x480
              {| raw_image_id := 1;
                 raw_annotations :=
                   [mk_obj [100; 100; 50; 60]%Q 3 3000 (Some 0%Z)] |})
    as [[image' t]|e] eqn:E; [| vm_compute in E; discriminate E].
  pose proof (call_returns_image _ _ _ _ _ _ E) as ->.
  exists t. split; [reflexivity|].
  destruct (call_ok_numbers_fit _ _ _ _ _ _ E) as (Hb & Ha & _).
  cbn [raw_annotations List.filter not_crowd mk_obj obj_iscrowd Z.eqb] in Hb, Ha.
  split.
  - assert (Hint : Forall (fun obj => forall n, obj_area obj = Some n ->
                                                is_py_int n = true)
                          [mk_obj [100; 100; 50; 60]%Q 3 3000 (Some 0%Z)]).
    { constructor; [|constructor]. intros n [= <-]. reflexivity. }
    specialize (Ha Hint). inversion Ha as [|? ? H1 _]. exact (H1 3000%Z eq_refl).
  - inversion Hb as [|? ? H1 _]. exact (H1 _ eq_refl).
Defined.
